(** * Satellite channel simulator: the propagation model of [src/model.js]

    A shallow embedding of the link-budget engine, the channel impulse
    response (CIR) engine, the MIMO capacity calculator, the calibration
    engine and the time-series generator, together with the properties the
    specification states about them.

    JavaScript numbers are IEEE 754 binary64 values; they are embedded as the
    primitive [float]s of the kernel, so that [+], [-], [*], [/], comparisons,
    [Math.abs] and [Math.sqrt] are the very operations the program executes.
    The transcendental functions of the [Math] object ([Math.sin],
    [Math.pow], ...) are "implementation-approximated" in ECMAScript: they are
    a parameter of the development (record [MathLib]), constrained only by
    the special values ECMAScript fixes (record [MathLaws]). *)

From Stdlib Require Import Floats ZArith List String Bool Lia.
Import ListNotations.

#[local] Open Scope float_scope.
#[local] Set Warnings "-inexact-float".

(** ** JavaScript numbers *)

Module JS.

(** [Math.PI]. *)
Definition PI : float := 0x1.921fb54442d18p+1.

(** ToBoolean on a number: [0], [-0] and [NaN] are falsy. *)
Definition truthy (x : float) : bool := negb (is_zero x || is_nan x).

(** A property that may be absent ([undefined]) or [null]. *)
Definition opt := option float.

(** ToNumber of a possibly absent property: [undefined] becomes [NaN]. *)
Definition num (o : opt) : float :=
  match o with Some x => x | None => nan end.

(** [o || d] for a numeric property [o]. *)
Definition or_else (o : opt) (d : float) : float :=
  match o with
  | Some x => if truthy x then x else d
  | None => d
  end.

(** Destructuring default / [o !== undefined ? o : d]. *)
Definition default (o : opt) (d : float) : float :=
  match o with Some x => x | None => d end.

(** [Math.max(a, b)]: NaN if either argument is NaN; [+0] is larger than
    [-0]. *)
Definition max (a b : float) : float :=
  if is_nan a || is_nan b then nan
  else if a <? b then b
  else if b <? a then a
  else if get_sign a then b else a.

(** [Math.min(a, b)]: NaN if either argument is NaN; [-0] is smaller than
    [+0]. *)
Definition min (a b : float) : float :=
  if is_nan a || is_nan b then nan
  else if a <? b then a
  else if b <? a then b
  else if get_sign a then a else b.

(** [a > b]. *)
Definition gtb (a b : float) : bool := b <? a.

(** [Number.isFinite]. *)
Definition isFinite (x : float) : bool := is_finite x.

(** Array read [a[i]] in a numeric context: out of range is [undefined],
    hence [NaN]. *)
Definition get (a : list float) (i : nat) : float := nth i a nan.

(** Array write [a[i] = v] for an index inside the array. *)
Fixpoint set {A : Type} (a : list A) (i : nat) (v : A) : list A :=
  match a, i with
  | [], _ => []
  | _ :: t, O => v :: t
  | h :: t, S j => h :: set t j v
  end.

End JS.

(** ** The [Math] object *)

(** The approximated functions of [Math] used by the model. *)
Record MathLib : Type := {
  m_sin : float -> float;
  m_cos : float -> float;
  m_tan : float -> float;
  m_log10 : float -> float;
  m_log2 : float -> float;
  m_pow : float -> float -> float
}.

(** The values ECMAScript prescribes exactly (sections Math.sin, Math.cos,
    Math.log10 and Number::exponentiate), as far as the proofs need them. *)
Record MathLaws (M : MathLib) : Prop := {
  sin_pos_zero : m_sin M 0 = 0;
  cos_pos_zero : m_cos M 0 = 1;
  cos_neg_zero : m_cos M (-0) = 1;
  log10_one : m_log10 M 1 = 0;
  pow_zero_pos : forall y, (0 <? y) = true -> m_pow M 0 y = 0
}.

(** *** A reference implementation

    A plain double-precision implementation (argument reduction followed by
    a Taylor polynomial), accurate to a few units in the last place on the
    arguments the model produces. It is used to run the model on concrete
    inputs. *)

Module RefMath.

Definition two52 : float := 0x1p+52.

(** Nearest integer, as a float. *)
Definition rint (x : float) : float :=
  if abs x <? two52 then
    if x <? 0 then (x - two52) + two52 else (x + two52) - two52
  else x.

Definition floor (x : float) : float :=
  let r := rint x in if x <? r then r - 1 else r.

(** The integer value of a float that holds an integer. *)
Definition to_Z (x : float) : Z :=
  if is_zero x || is_nan x || is_infinity x then 0%Z
  else
    let (m, e) := Z.frexp (abs x) in
    let n := Uint63.to_Z (normfr_mantissa m) in
    let v := Z.shiftl n (e - 53) in
    if x <? 0 then Z.opp v else v.

Definition is_int (x : float) : bool := floor x =? x.

Definition is_odd_int (x : float) : bool :=
  is_int x && (abs x <? 0x1p+53) && Z.odd (to_Z x).

(** Horner evaluation of [c0 + x (c1 + x (c2 + ...))]. *)
Fixpoint horner (cs : list float) (x : float) : float :=
  match cs with
  | [] => 0
  | c :: cs' => c + x * horner cs' x
  end.

Definition ln2_hi : float := 0x1.62e42fee00000p-1.
Definition ln2_lo : float := 0x1.a39ef35793c76p-33.
Definition ln2 : float := 0x1.62e42fefa39efp-1.
Definition ln10 : float := 0x1.26bb1bbb55516p+1.

(** 1/n! for n = 0..17. *)
Definition inv_fact : list float :=
  [1; 1; 0.5; 1/6; 1/24; 1/120; 1/720; 1/5040; 1/40320; 1/362880;
   1/3628800; 1/39916800; 1/479001600; 1/6227020800; 1/87178291200;
   1/1307674368000; 1/20922789888000; 1/355687428096000].

Definition exp (x : float) : float :=
  if is_nan x then nan
  else if 710 <? x then infinity
  else if x <? -746 then 0
  else
    let k := rint (x / ln2) in
    let r := (x - k * ln2_hi) - k * ln2_lo in
    Z.ldexp (horner inv_fact r) (to_Z k).

(** 2/(2n+1) for n = 0..13: ln m = sum 2 s^(2n+1)/(2n+1), s = (m-1)/(m+1). *)
Definition atanh_coeffs : list float :=
  [2; 2/3; 2/5; 2/7; 2/9; 2/11; 2/13; 2/15; 2/17; 2/19; 2/21; 2/23; 2/25; 2/27].

(** Mantissa part [ln m] and exponent [e] with [x = m * 2^e],
    [m] in [[sqrt 1/2, sqrt 2)]. *)
Definition ln_parts (x : float) : float * float :=
  let (m0, e0) := Z.frexp x in
  let '(m, e) :=
    if m0 <? 0x1.6a09e667f3bcdp-1 then (m0 * 2, (e0 - 1)%Z) else (m0, e0) in
  let s := (m - 1) / (m + 1) in
  (s * horner atanh_coeffs (s * s), of_uint63 (Uint63.of_Z (Z.abs e)) * (if (e <? 0)%Z then -1 else 1)).

Definition ln (x : float) : float :=
  if is_nan x || (x <? 0) then nan
  else if is_zero x then neg_infinity
  else if x =? infinity then infinity
  else let (lm, e) := ln_parts x in e * ln2 + lm.

Definition log10 (x : float) : float :=
  if is_nan x || (x <? 0) then nan
  else if is_zero x then neg_infinity
  else if x =? infinity then infinity
  else let (lm, e) := ln_parts x in e * 0x1.34413509f79ffp-2 + lm / ln10.

Definition log2 (x : float) : float :=
  if is_nan x || (x <? 0) then nan
  else if is_zero x then neg_infinity
  else if x =? infinity then infinity
  else let (lm, e) := ln_parts x in e + lm / ln2.

Definition pio2_1 : float := 0x1.921fb54400000p+0.
Definition pio2_2 : float := 0x1.0b4611a600000p-34.
Definition pio2_3 : float := 0x1.3198a2e037073p-69.

(** sin r and cos r for |r| <= pi/4, as polynomials in r^2. *)
Definition sin_coeffs : list float :=
  [1; -1/6; 1/120; -1/5040; 1/362880; -1/39916800; 1/6227020800;
   -1/1307674368000; 1/355687428096000].
Definition cos_coeffs : list float :=
  [1; -0.5; 1/24; -1/720; 1/40320; -1/3628800; 1/479001600;
   -1/87178291200; 1/20922789888000].

Definition ksin (r : float) : float := r * horner sin_coeffs (r * r).
Definition kcos (r : float) : float := horner cos_coeffs (r * r).

(** Reduction to [r] in [[-pi/4, pi/4]] and the quadrant [0..3]. *)
Definition reduce (x : float) : float * Z :=
  let k := rint (x / (JS.PI / 2)) in
  let r := ((x - k * pio2_1) - k * pio2_2) - k * pio2_3 in
  (r, Z.modulo (to_Z (k - 4 * floor (k / 4))) 4).

Definition sin (x : float) : float :=
  if is_nan x || is_infinity x then nan
  else if is_zero x then x
  else
    let (r, q) := reduce x in
    match q with
    | 0%Z => ksin r
    | 1%Z => kcos r
    | 2%Z => - ksin r
    | _ => - kcos r
    end.

Definition cos (x : float) : float :=
  if is_nan x || is_infinity x then nan
  else if is_zero x then 1
  else
    let (r, q) := reduce x in
    match q with
    | 0%Z => kcos r
    | 1%Z => - ksin r
    | 2%Z => - kcos r
    | _ => ksin r
    end.

Definition tan (x : float) : float :=
  if is_nan x || is_infinity x then nan
  else if is_zero x then x
  else sin x / cos x.

(** [x * x * ... * x], [n] factors, for the small integer exponents. *)
Fixpoint ipow (x : float) (n : nat) : float :=
  match n with
  | O => 1
  | S O => x
  | S n' => ipow x n' * x
  end.

(** Number::exponentiate. *)
Definition pow (x y : float) : float :=
  if is_nan y then nan
  else if is_zero y then 1
  else if is_nan x then nan
  else if is_zero x then
    if 0 <? y then (if get_sign x && is_odd_int y then -0 else 0)
    else (if get_sign x && is_odd_int y then neg_infinity else infinity)
  else if is_infinity y then
    if abs x =? 1 then nan
    else if (1 <? abs x) then (if 0 <? y then infinity else 0)
    else (if 0 <? y then 0 else infinity)
  else if x =? infinity then (if 0 <? y then infinity else 0)
  else if x =? neg_infinity then
    if 0 <? y then (if is_odd_int y then neg_infinity else infinity)
    else (if is_odd_int y then -0 else 0)
  else if is_int y && (abs y <=? 8) && (0 <? y) then
    ipow x (Z.to_nat (to_Z y))
  else if x <? 0 then
    if is_int y then
      let v := exp (y * ln (- x)) in if is_odd_int y then - v else v
    else nan
  else exp (y * ln x).

Definition lib : MathLib := {|
  m_sin := sin;
  m_cos := cos;
  m_tan := tan;
  m_log10 := log10;
  m_log2 := log2;
  m_pow := pow
|}.

End RefMath.

(** ** Data model *)

(** The parameter object shared by the engines. Every property may be absent,
    as in the source, where absent properties are defaulted or read as
    [undefined]. *)
Record LinkParams : Type := {
  p_freq : JS.opt;
  p_rainRate : JS.opt;
  p_elevation : JS.opt;
  p_env : option string;
  p_tec : JS.opt;
  p_xpdAnt : JS.opt;
  p_correctionFactor : JS.opt;
  p_slantRange : JS.opt;
  p_hpbw : JS.opt;
  p_simTime : JS.opt;
  p_gasAttenOffset_dB : JS.opt;
  p_scatterPowerOffset_dB : JS.opt;
  p_isPhasedArray : bool;
  p_disableFastFading : bool;
  p_bandwidth : JS.opt;
  p_eirp : JS.opt;
  p_gRx : JS.opt;
  p_tRx : JS.opt
}.

(** The empty object [{}]. *)
Definition noParams : LinkParams := {|
  p_freq := None; p_rainRate := None; p_elevation := None; p_env := None;
  p_tec := None; p_xpdAnt := None; p_correctionFactor := None;
  p_slantRange := None; p_hpbw := None; p_simTime := None;
  p_gasAttenOffset_dB := None; p_scatterPowerOffset_dB := None;
  p_isPhasedArray := false; p_disableFastFading := false;
  p_bandwidth := None; p_eirp := None; p_gRx := None; p_tRx := None
|}.

(** Object spread with one property overridden: [{...p, tec: v}] and so on. *)
Definition with_tec (p : LinkParams) (v : JS.opt) : LinkParams := {|
  p_freq := p_freq p; p_rainRate := p_rainRate p; p_elevation := p_elevation p;
  p_env := p_env p; p_tec := v; p_xpdAnt := p_xpdAnt p;
  p_correctionFactor := p_correctionFactor p; p_slantRange := p_slantRange p;
  p_hpbw := p_hpbw p; p_simTime := p_simTime p;
  p_gasAttenOffset_dB := p_gasAttenOffset_dB p;
  p_scatterPowerOffset_dB := p_scatterPowerOffset_dB p;
  p_isPhasedArray := p_isPhasedArray p;
  p_disableFastFading := p_disableFastFading p;
  p_bandwidth := p_bandwidth p; p_eirp := p_eirp p; p_gRx := p_gRx p;
  p_tRx := p_tRx p
|}.

Definition with_elevation (p : LinkParams) (v : JS.opt) : LinkParams := {|
  p_freq := p_freq p; p_rainRate := p_rainRate p; p_elevation := v;
  p_env := p_env p; p_tec := p_tec p; p_xpdAnt := p_xpdAnt p;
  p_correctionFactor := p_correctionFactor p; p_slantRange := p_slantRange p;
  p_hpbw := p_hpbw p; p_simTime := p_simTime p;
  p_gasAttenOffset_dB := p_gasAttenOffset_dB p;
  p_scatterPowerOffset_dB := p_scatterPowerOffset_dB p;
  p_isPhasedArray := p_isPhasedArray p;
  p_disableFastFading := p_disableFastFading p;
  p_bandwidth := p_bandwidth p; p_eirp := p_eirp p; p_gRx := p_gRx p;
  p_tRx := p_tRx p
|}.

Definition with_rainRate (p : LinkParams) (v : JS.opt) : LinkParams := {|
  p_freq := p_freq p; p_rainRate := v; p_elevation := p_elevation p;
  p_env := p_env p; p_tec := p_tec p; p_xpdAnt := p_xpdAnt p;
  p_correctionFactor := p_correctionFactor p; p_slantRange := p_slantRange p;
  p_hpbw := p_hpbw p; p_simTime := p_simTime p;
  p_gasAttenOffset_dB := p_gasAttenOffset_dB p;
  p_scatterPowerOffset_dB := p_scatterPowerOffset_dB p;
  p_isPhasedArray := p_isPhasedArray p;
  p_disableFastFading := p_disableFastFading p;
  p_bandwidth := p_bandwidth p; p_eirp := p_eirp p; p_gRx := p_gRx p;
  p_tRx := p_tRx p
|}.

Definition with_freq (p : LinkParams) (v : JS.opt) : LinkParams := {|
  p_freq := v; p_rainRate := p_rainRate p; p_elevation := p_elevation p;
  p_env := p_env p; p_tec := p_tec p; p_xpdAnt := p_xpdAnt p;
  p_correctionFactor := p_correctionFactor p; p_slantRange := p_slantRange p;
  p_hpbw := p_hpbw p; p_simTime := p_simTime p;
  p_gasAttenOffset_dB := p_gasAttenOffset_dB p;
  p_scatterPowerOffset_dB := p_scatterPowerOffset_dB p;
  p_isPhasedArray := p_isPhasedArray p;
  p_disableFastFading := p_disableFastFading p;
  p_bandwidth := p_bandwidth p; p_eirp := p_eirp p; p_gRx := p_gRx p;
  p_tRx := p_tRx p
|}.

Definition with_slantRange (p : LinkParams) (v : JS.opt) : LinkParams := {|
  p_freq := p_freq p; p_rainRate := p_rainRate p; p_elevation := p_elevation p;
  p_env := p_env p; p_tec := p_tec p; p_xpdAnt := p_xpdAnt p;
  p_correctionFactor := p_correctionFactor p; p_slantRange := v;
  p_hpbw := p_hpbw p; p_simTime := p_simTime p;
  p_gasAttenOffset_dB := p_gasAttenOffset_dB p;
  p_scatterPowerOffset_dB := p_scatterPowerOffset_dB p;
  p_isPhasedArray := p_isPhasedArray p;
  p_disableFastFading := p_disableFastFading p;
  p_bandwidth := p_bandwidth p; p_eirp := p_eirp p; p_gRx := p_gRx p;
  p_tRx := p_tRx p
|}.

Definition with_simTime (p : LinkParams) (v : JS.opt) : LinkParams := {|
  p_freq := p_freq p; p_rainRate := p_rainRate p; p_elevation := p_elevation p;
  p_env := p_env p; p_tec := p_tec p; p_xpdAnt := p_xpdAnt p;
  p_correctionFactor := p_correctionFactor p; p_slantRange := p_slantRange p;
  p_hpbw := p_hpbw p; p_simTime := v;
  p_gasAttenOffset_dB := p_gasAttenOffset_dB p;
  p_scatterPowerOffset_dB := p_scatterPowerOffset_dB p;
  p_isPhasedArray := p_isPhasedArray p;
  p_disableFastFading := p_disableFastFading p;
  p_bandwidth := p_bandwidth p; p_eirp := p_eirp p; p_gRx := p_gRx p;
  p_tRx := p_tRx p
|}.

Definition with_eirp (p : LinkParams) (v : JS.opt) : LinkParams := {|
  p_freq := p_freq p; p_rainRate := p_rainRate p; p_elevation := p_elevation p;
  p_env := p_env p; p_tec := p_tec p; p_xpdAnt := p_xpdAnt p;
  p_correctionFactor := p_correctionFactor p; p_slantRange := p_slantRange p;
  p_hpbw := p_hpbw p; p_simTime := p_simTime p;
  p_gasAttenOffset_dB := p_gasAttenOffset_dB p;
  p_scatterPowerOffset_dB := p_scatterPowerOffset_dB p;
  p_isPhasedArray := p_isPhasedArray p;
  p_disableFastFading := p_disableFastFading p;
  p_bandwidth := p_bandwidth p; p_eirp := v; p_gRx := p_gRx p;
  p_tRx := p_tRx p
|}.

(** The bundle returned by [calculateLinkBudget]. *)
Record LinkBudget : Type := {
  attRain : float;
  attGas : float;
  attCloud : float;
  fadeLMS : float;
  lossFaraday : float;
  omegaDeg : float;
  totalLoss : float;
  xpd : float;
  actualFspl : float;
  deltaFspl : float;
  apparentElevation : float;
  refractionCorrection : float;
  pointingLoss : float;
  scanLoss : float;
  multipathLoss : float;
  tSky : float;
  totalAtmosphericLoss : float;
  scintLoss : float;
  scintillationSigma : float;
  groupDelayNs : float;
  dispersionNs : float;
  maxSymbolRateMbaud : float
}.

(** Every number of a link budget, in the order of the returned object. *)
Definition lb_fields (r : LinkBudget) : list float :=
  [attRain r; attGas r; attCloud r; fadeLMS r; lossFaraday r; omegaDeg r;
   totalLoss r; xpd r; actualFspl r; deltaFspl r; apparentElevation r;
   refractionCorrection r; pointingLoss r; scanLoss r; multipathLoss r;
   tSky r; totalAtmosphericLoss r; scintLoss r; scintillationSigma r;
   groupDelayNs r; dispersionNs r; maxSymbolRateMbaud r].

(** [RAIN_COEFFS], as [Object.entries] enumerates it: the integer-like keys
    ["12"], ["30"], ["40"], ["50"] come first in ascending order, then the
    key ["2.2"]. Each entry is (frequency, (k, alpha)). *)
Definition RAIN_COEFFS : list (float * (float * float)) :=
  [ (12, (0.018, 1.15));
    (30, (0.187, 1.021));
    (40, (0.35, 0.93));
    (50, (0.55, 0.88));
    (2.2, (0.0002, 0.95)) ].

(** The nearest-frequency scan shared by [calculateLinkBudget] and
    [computeCIR]: [(k, alpha)] of the first entry whose distance to [freq]
    is strictly below every earlier one and below 100. *)
Definition rainCoeffs (freq : float) : float * float :=
  let '(_, k, alpha) :=
    fold_left
      (fun (st : float * float * float) (e : float * (float * float)) =>
         let '(minDiff, k, alpha) := st in
         let diff := abs (fst e - freq) in
         if diff <? minDiff then (diff, fst (snd e), snd (snd e))
         else (minDiff, k, alpha))
      RAIN_COEFFS (100, 0.018, 1.15) in
  (k, alpha).

(** The zenith gas attenuation by band. *)
Definition zenithGas (freq : float) : float :=
  if freq <? 10 then 0.05
  else if freq <? 20 then 0.2
  else if freq <? 35 then 0.3
  else if freq <? 50 then 0.8
  else 4.0.

(** [env === s]. *)
Definition env_is (env : option string) (s : string) : bool :=
  match env with
  | Some e => String.eqb e s
  | None => false
  end.

(** The kind of a channel tap; the source stores a display string:
    [LOS] is ['LOS (直射)'], [SeaReflection] is ['海面反射'],
    [BuildingNear]/[BuildingFar] are ['建筑散射-近']/['建筑散射-远'],
    [VegetationNear]/[VegetationFar] are ['植被散射-近']/['植被散射-远'] and
    [IonoDispersion] is ['电离层色散']. *)
Inductive TapLabel : Type :=
  | LOS
  | SeaReflection
  | BuildingNear
  | BuildingFar
  | VegetationNear
  | VegetationFar
  | IonoDispersion.

Definition TapLabel_eqb (a b : TapLabel) : bool :=
  match a, b with
  | LOS, LOS | SeaReflection, SeaReflection | BuildingNear, BuildingNear
  | BuildingFar, BuildingFar | VegetationNear, VegetationNear
  | VegetationFar, VegetationFar | IonoDispersion, IonoDispersion => true
  | _, _ => false
  end.

(** One multipath component. *)
Record ChannelTap : Type := {
  index : nat;
  label : TapLabel;
  delay_ns : float;
  excessDelay_ns : float;
  amplitude_linear : float;
  amplitude_dB : float;
  phase_rad : float
}.

(** The object returned by [computeCIR]. *)
Record CIR : Type := {
  taps : list ChannelTap;
  rmsDelaySpread_ns : float;
  coherenceBandwidth_MHz : float;
  absoluteFspl : float;
  totalAtmLoss : float
}.

(** An entry of [scatterParams]. *)
Record ScatterParam : Type := {
  sp_delay : float;
  sp_power : float;
  sp_label : TapLabel
}.

Definition urbanScatter : list ScatterParam :=
  [ {| sp_delay := 100; sp_power := -15; sp_label := BuildingNear |};
    {| sp_delay := 300; sp_power := -22; sp_label := BuildingFar |} ].

Definition suburbanScatter : list ScatterParam :=
  [ {| sp_delay := 80; sp_power := -18; sp_label := VegetationNear |};
    {| sp_delay := 200; sp_power := -25; sp_label := VegetationFar |} ].

(** The object returned by [calculateMIMOCapacity]. *)
Record MIMOCapacity : Type := {
  capRank2 : float;
  capRank1 : float
}.

(** ** Calibration data *)

(** The five calibration parameters, by their property names. *)
Inductive CalibKey : Type :=
  | K_correctionFactor
  | K_gasAttenOffset_dB
  | K_scatterPowerOffset_dB
  | K_eirpOffset_dB
  | K_systemNoiseOffset_K.

(** An entry of [CALIB_PARAM_DEFS] (the display label is left out). *)
Record CalibParamDef : Type := {
  d_key : CalibKey;
  d_defaultVal : float;
  d_min : float;
  d_max : float;
  d_step : float
}.

Definition CALIB_PARAM_DEFS : list CalibParamDef :=
  [ {| d_key := K_correctionFactor; d_defaultVal := 1.0; d_min := 0.3;
       d_max := 3.0; d_step := 0.01 |};
    {| d_key := K_gasAttenOffset_dB; d_defaultVal := 0.0; d_min := -2.0;
       d_max := 2.0; d_step := 0.01 |};
    {| d_key := K_scatterPowerOffset_dB; d_defaultVal := 0.0; d_min := -10;
       d_max := 5.0; d_step := 0.1 |};
    {| d_key := K_eirpOffset_dB; d_defaultVal := 0.0; d_min := -5.0;
       d_max := 5.0; d_step := 0.1 |};
    {| d_key := K_systemNoiseOffset_K; d_defaultVal := 0.0; d_min := -50;
       d_max := 100; d_step := 1.0 |} ].

Definition getCalibParamDefs : list CalibParamDef := CALIB_PARAM_DEFS.

(** The [params] object of a profile: one property per key, absent until it
    is assigned. *)
Record CalibParams : Type := {
  c_correctionFactor : JS.opt;
  c_gasAttenOffset_dB : JS.opt;
  c_scatterPowerOffset_dB : JS.opt;
  c_eirpOffset_dB : JS.opt;
  c_systemNoiseOffset_K : JS.opt
}.

(** [{}]. *)
Definition emptyCalibParams : CalibParams := {|
  c_correctionFactor := None; c_gasAttenOffset_dB := None;
  c_scatterPowerOffset_dB := None; c_eirpOffset_dB := None;
  c_systemNoiseOffset_K := None
|}.

(** [params[key]]. *)
Definition cp_get (c : CalibParams) (k : CalibKey) : JS.opt :=
  match k with
  | K_correctionFactor => c_correctionFactor c
  | K_gasAttenOffset_dB => c_gasAttenOffset_dB c
  | K_scatterPowerOffset_dB => c_scatterPowerOffset_dB c
  | K_eirpOffset_dB => c_eirpOffset_dB c
  | K_systemNoiseOffset_K => c_systemNoiseOffset_K c
  end.

(** [params[key] = v]. *)
Definition cp_set (c : CalibParams) (k : CalibKey) (v : float) : CalibParams :=
  match k with
  | K_correctionFactor =>
      {| c_correctionFactor := Some v;
         c_gasAttenOffset_dB := c_gasAttenOffset_dB c;
         c_scatterPowerOffset_dB := c_scatterPowerOffset_dB c;
         c_eirpOffset_dB := c_eirpOffset_dB c;
         c_systemNoiseOffset_K := c_systemNoiseOffset_K c |}
  | K_gasAttenOffset_dB =>
      {| c_correctionFactor := c_correctionFactor c;
         c_gasAttenOffset_dB := Some v;
         c_scatterPowerOffset_dB := c_scatterPowerOffset_dB c;
         c_eirpOffset_dB := c_eirpOffset_dB c;
         c_systemNoiseOffset_K := c_systemNoiseOffset_K c |}
  | K_scatterPowerOffset_dB =>
      {| c_correctionFactor := c_correctionFactor c;
         c_gasAttenOffset_dB := c_gasAttenOffset_dB c;
         c_scatterPowerOffset_dB := Some v;
         c_eirpOffset_dB := c_eirpOffset_dB c;
         c_systemNoiseOffset_K := c_systemNoiseOffset_K c |}
  | K_eirpOffset_dB =>
      {| c_correctionFactor := c_correctionFactor c;
         c_gasAttenOffset_dB := c_gasAttenOffset_dB c;
         c_scatterPowerOffset_dB := c_scatterPowerOffset_dB c;
         c_eirpOffset_dB := Some v;
         c_systemNoiseOffset_K := c_systemNoiseOffset_K c |}
  | K_systemNoiseOffset_K =>
      {| c_correctionFactor := c_correctionFactor c;
         c_gasAttenOffset_dB := c_gasAttenOffset_dB c;
         c_scatterPowerOffset_dB := c_scatterPowerOffset_dB c;
         c_eirpOffset_dB := c_eirpOffset_dB c;
         c_systemNoiseOffset_K := Some v |}
  end.

(** [for (const def of CALIB_PARAM_DEFS) params[def.key] = def.defaultVal]. *)
Definition defaultCalibParams : CalibParams :=
  fold_left (fun c def => cp_set c (d_key def) (d_defaultVal def))
    CALIB_PARAM_DEFS emptyCalibParams.

(** A calibration profile. [refSatellite] is [None] both when the property
    is absent and when it is [null]. *)
Record CalibrationProfile : Type := {
  calibrated : bool;
  timestamp : option string;
  dataPointCount : nat;
  residualRMS : float;
  refSatellite : option string;
  params : CalibParams
}.

Definition createDefaultCalibration : CalibrationProfile := {|
  calibrated := false;
  timestamp := None;
  dataPointCount := 0;
  residualRMS := 0;
  refSatellite := None;
  params := defaultCalibParams
|}.

(** [applyCalibration]; an absent profile is [None]. *)
Definition applyCalibration (rawParams : LinkParams)
    (calibProfile : option CalibrationProfile) : LinkParams :=
  match calibProfile with
  | None => rawParams
  | Some prof =>
      if negb (calibrated prof) then rawParams
      else
        let cp := params prof in
        {| p_freq := p_freq rawParams;
           p_rainRate := p_rainRate rawParams;
           p_elevation := p_elevation rawParams;
           p_env := p_env rawParams;
           p_tec := p_tec rawParams;
           p_xpdAnt := p_xpdAnt rawParams;
           p_correctionFactor := Some (JS.or_else (c_correctionFactor cp) 1.0);
           p_slantRange := p_slantRange rawParams;
           p_hpbw := p_hpbw rawParams;
           p_simTime := p_simTime rawParams;
           p_gasAttenOffset_dB := Some (JS.or_else (c_gasAttenOffset_dB cp) 0);
           p_scatterPowerOffset_dB :=
             Some (JS.or_else (c_scatterPowerOffset_dB cp) 0);
           p_isPhasedArray := p_isPhasedArray rawParams;
           p_disableFastFading := p_disableFastFading rawParams;
           p_bandwidth := p_bandwidth rawParams;
           p_eirp :=
             Some (JS.or_else (p_eirp rawParams) 60.0
                   + JS.or_else (c_eirpOffset_dB cp) 0);
           p_gRx := p_gRx rawParams;
           p_tRx :=
             Some (JS.or_else (p_tRx rawParams) 150.0
                   + JS.or_else (c_systemNoiseOffset_K cp) 0) |}
  end.

(** One measurement point; an absent or [null] property is [None]. *)
Record Measurement : Type := {
  m_elevation : JS.opt;
  m_rainRate : JS.opt;
  measuredCN0_dB : JS.opt;
  measuredRSSI_dBm : JS.opt;
  measuredXPD_dB : JS.opt;
  measuredAttenuation_dB : JS.opt;
  measuredLoss : JS.opt
}.

(** The reference satellite handed to [calibrateModel]. *)
Record RefSatellite : Type := {
  rs_freq : JS.opt;
  rs_eirp : JS.opt;
  rs_satName : option string
}.

(** What [simulateForMeasurement] returns. *)
Record Prediction : Type := {
  predictedCN0 : float;
  predictedRSSI : float;
  predictedXPD : float;
  predictedAtten : float;
  predictedTotalLoss : float
}.

(** What a call can observe besides its arguments: the wall clock
    ([new Date().toISOString()]) and the locale of the host
    ([date.toLocaleTimeString()]). *)
Record Ambient : Type := {
  nowISO : string;
  toLocaleTimeString : Z -> string
}.

(** ** Small dense linear algebra on arrays *)

(** [A[i][j]]. *)
Definition get2 (A : list (list float)) (i j : nat) : float :=
  JS.get (nth i A []) j.

(** [for (let r = 0; r < n; r++) sum += f(r)], from [sum = init]. *)
Definition sumFor (n : nat) (init : float) (f : nat -> float) : float :=
  fold_left (fun sum r => sum + f r) (seq 0 n) init.

(** The partial-pivot search of column [col]. *)
Definition findMaxRow (nParams : nat) (A : list (list float)) (col : nat) : nat :=
  fold_left
    (fun maxRow row =>
       if JS.gtb (abs (get2 A row col)) (abs (get2 A maxRow col))
       then row else maxRow)
    (seq (S col) (nParams - S col)) col.

(** [[a[i], a[j]] = [a[j], a[i]]]. *)
Definition swap {A : Type} (d : A) (a : list A) (i j : nat) : list A :=
  let ai := nth i a d in
  let aj := nth j a d in
  JS.set (JS.set a i aj) j ai.

(** One column of the forward elimination. *)
Definition eliminateCol (nParams : nat) (st : list (list float) * list float)
    (col : nat) : list (list float) * list float :=
  let '(A, b) := st in
  let maxRow := findMaxRow nParams A col in
  let A := swap [] A col maxRow in
  let b := swap nan b col maxRow in
  let pivot := get2 A col col in
  if abs pivot <? 1e-12 then (A, b)
  else
    fold_left
      (fun (st : list (list float) * list float) row =>
         let '(A, b) := st in
         let factor := get2 A row col / pivot in
         let newRow :=
           fold_left
             (fun r j => JS.set r j (JS.get r j - factor * get2 A col j))
             (seq col (nParams - col)) (nth row A []) in
         (JS.set A row newRow,
          JS.set b row (JS.get b row - factor * JS.get b col)))
      (seq (S col) (nParams - S col)) (A, b).

(** Back substitution, [i] from [nParams - 1] down to 0. *)
Definition backSubstitute (nParams : nat) (A : list (list float))
    (b : list float) : list float :=
  fold_left
    (fun dp i =>
       let sum :=
         fold_left (fun sum j => sum - get2 A i j * JS.get dp j)
           (seq (S i) (nParams - S i)) (JS.get b i) in
       JS.set dp i
         (if JS.gtb (abs (get2 A i i)) 1e-12 then sum / get2 A i i else 0))
    (rev (seq 0 nParams)) (repeat 0 nParams).

(** ** Time-series data *)

(** What the orbit propagator yields for a date: elevation and azimuth in
    degrees, slant range in km. *)
Record LookAngles : Type := {
  la_elevation : float;
  la_azimuth : float;
  la_rangeSat : float
}.

(** The orbit propagator of [satellite.js] for one satellite and observer
    ([propagate], [gstime], [eciToEcf], [ecfToLookAngles]): the look angles
    at a date, in milliseconds since the epoch, or [None] when [propagate]
    returns no position. *)
Definition Propagator : Type := Z -> option LookAngles.

(** One frame of the channel time series. *)
Record TimelineFrame : Type := {
  fr_time : Z;
  fr_timeLabel : string;
  fr_frameIndex : nat;
  fr_elevation : float;
  fr_azimuth : float;
  fr_slantRange : float;
  fr_apparentElevation : float;
  fr_absoluteFspl : float;
  fr_rxPowerDbm : float;
  fr_noiseFloorDbm : float;
  fr_snrDb : float;
  fr_attRain : float;
  fr_attGas : float;
  fr_attCloud : float;
  fr_totalAtmosphericLoss : float;
  fr_fadeLMS : float;
  fr_lossFaraday : float;
  fr_pointingLoss : float;
  fr_scanLoss : float;
  fr_multipathLoss : float;
  fr_scintLoss : float;
  fr_tSky : float;
  fr_xpd : float;
  fr_capRank1 : float;
  fr_capRank2 : float;
  fr_groupDelayNs : float;
  fr_dispersionNs : float;
  fr_cir : CIR
}.

(** ** Link budget engine *)

Section Model.

Variable M : MathLib.

#[local] Abbreviation sin := (m_sin M).
#[local] Abbreviation cos := (m_cos M).
#[local] Abbreviation tan := (m_tan M).
#[local] Abbreviation log10 := (m_log10 M).
#[local] Abbreviation log2 := (m_log2 M).
#[local] Abbreviation pow := (m_pow M).
#[local] Abbreviation PI := JS.PI.

(** [getSoSFade]: a sum of five sinusoids, zero at [t_sec = 0] and for an
    absent argument. *)
Definition getSoSFade (t_sec : JS.opt) : float :=
  match t_sec with
  | None => 0
  | Some t =>
      if t =? 0 then 0
      else
        let f := [0.11; 0.23; 0.37; 0.53; 0.79] in
        let phi := [0.1; 1.2; 2.3; 3.4; 4.5] in
        let sum :=
          fold_left
            (fun sum i => sum + cos (2.0 * PI * JS.get f i * t + JS.get phi i))
            (seq 0 5) 0 in
        sum / 1.581
  end.

Definition calculateLinkBudget (params : LinkParams) : LinkBudget :=
  let freq := JS.num (p_freq params) in
  let rainRate := JS.num (p_rainRate params) in
  let elevation := JS.num (p_elevation params) in
  let env := p_env params in
  let tec := JS.default (p_tec params) 50.0 in
  let xpdAnt := JS.default (p_xpdAnt params) 35.0 in
  let correctionFactor := JS.default (p_correctionFactor params) 1.0 in
  let slantRange := JS.default (p_slantRange params) 35786 in
  let hpbw := JS.default (p_hpbw params) 2.0 in
  let simTime := JS.default (p_simTime params) 0 in
  (* refraction *)
  let trueElev := JS.max 0 elevation in
  let refractionCorrection :=
    1.02 / tan ((trueElev + 10.3 / (trueElev + 5.11)) * PI / 180) / 60.0 in
  let apparentElevation := elevation + refractionCorrection in
  let pointingLoss :=
    if JS.gtb hpbw 0 then 12.0 * pow (refractionCorrection / hpbw) 2 else 0 in
  let effElev := apparentElevation in
  (* rain *)
  let '(k, alpha) := rainCoeffs freq in
  let gamma := k * pow rainRate alpha * correctionFactor in
  let elevRad := (effElev * PI) / 180 in
  let heightRain := 3.0 in
  let slantPath := heightRain / sin elevRad in
  let rFactor := 1 / (1 + 0.045 * slantPath) in
  let lEff := slantPath * rFactor in
  let attRain := gamma * lEff in
  (* gas and cloud *)
  let attZenithGas := zenithGas freq in
  let attGas := attZenithGas / sin elevRad in
  let K_l := 0.0002 * pow freq 1.95 in
  let L_content := 0.5 in
  let attCloud := (L_content * K_l) / sin elevRad in
  let totalAtmosphericLoss :=
    attRain + attGas + attCloud + JS.or_else (p_gasAttenOffset_dB params) 0 in
  (* Faraday rotation *)
  let omegaDeg := (108 * tec) / (pow freq 2 * sin elevRad) in
  let omegaRad := (omegaDeg * PI) / 180 in
  let cosOmega := abs (cos omegaRad) in
  let lossFaraday :=
    if JS.gtb cosOmega 0.001 then -20 * log10 cosOmega else 60.0 in
  let tanOmega := abs (tan omegaRad) in
  let xpdFaraday :=
    if JS.gtb tanOmega 1e-4 then -20 * log10 tanOmega else 40.0 in
  let xpdRain :=
    if JS.gtb attRain 0.1 then
      let U := 30 * log10 freq in
      let V := 20.0 in
      U - V * log10 attRain
    else 40.0 in
  let xpdAntPower := pow 10 (- xpdAnt / 10) in
  let crossPowRain := pow 10 (- xpdRain / 10) in
  let crossPowFaraday := pow 10 (- xpdFaraday / 10) in
  let xpd0 := -10 * log10 (crossPowRain + crossPowFaraday + xpdAntPower) in
  let xpd := JS.max 0 (JS.min 40 xpd0) in
  (* shadowing *)
  let fadeLMS :=
    if env_is env "urban" then 15.0 - effElev * 0.15
    else if env_is env "suburban" then 6.0 - effElev * 0.05
    else if env_is env "maritime" then 0.0
    else 0.5 in
  (* two-ray maritime multipath *)
  let multipathLoss :=
    if env_is env "maritime" then
      let h_rx := 15.0 in
      let c_GHz_m := 0.299792458 in
      let elevRadP := apparentElevation * (PI / 180.0) in
      let phaseTerm :=
        (2.0 * PI * h_rx * abs (sin elevRadP) * freq) / c_GHz_m in
      let g_mp := 4.0 * pow (sin phaseTerm) 2 in
      let g_mp := JS.max 0.01 g_mp in
      -10.0 * log10 g_mp
    else 0 in
  (* free-space path loss relative to GEO *)
  let refFspl := 20 * log10 35786 + 20 * log10 freq + 92.45 in
  let actualFspl := 20 * log10 slantRange + 20 * log10 freq + 92.45 in
  let deltaFspl := actualFspl - refFspl in
  (* phased-array scan loss *)
  let scanLoss :=
    if p_isPhasedArray params then
      let scanAngleRad := (90.0 - apparentElevation) * (PI / 180.0) in
      let cosScan := JS.max 0.01 (cos scanAngleRad) in
      -15.0 * log10 cosScan
    else 0 in
  (* scintillation *)
  let sinElev := JS.max 0.01 (sin (effElev * PI / 180.0)) in
  let sigmaTropo := 0.025 * pow freq 0.58 / pow sinElev 1.2 in
  let sigmaIono :=
    (JS.or_else (p_tec params) 50 / 100.0) * (2.0 / pow freq 1.5)
    / pow sinElev 1.2 in
  let scintillationSigma :=
    sqrt (sigmaTropo * sigmaTropo + sigmaIono * sigmaIono) in
  (* ionospheric group delay and dispersion *)
  let tecVal := JS.default (p_tec params) 50 in
  let bwMHz := JS.default (p_bandwidth params) 400 in
  let groupDelayNs := (134.0 * tecVal) / (freq * freq * sinElev) in
  let dispersionNs :=
    (2.0 * 134.0 * tecVal * (bwMHz / 1000.0)) / (pow freq 3 * sinElev) in
  let maxSymbolRateMbaud :=
    if JS.gtb dispersionNs 0.001 then 1000.0 / (2.0 * dispersionNs)
    else 999999 in
  let scintLoss :=
    if JS.truthy simTime && negb (p_disableFastFading params)
    then getSoSFade (Some simTime) * scintillationSigma
    else 0 in
  let totalLoss :=
    totalAtmosphericLoss + fadeLMS + lossFaraday + deltaFspl + pointingLoss
    + scanLoss + multipathLoss + scintLoss in
  let tSky := 290.0 * (1.0 - pow 10 (- totalAtmosphericLoss / 10.0)) in
  {| attRain := attRain; attGas := attGas; attCloud := attCloud;
     fadeLMS := fadeLMS; lossFaraday := lossFaraday; omegaDeg := omegaDeg;
     totalLoss := totalLoss; xpd := xpd; actualFspl := actualFspl;
     deltaFspl := deltaFspl; apparentElevation := apparentElevation;
     refractionCorrection := refractionCorrection;
     pointingLoss := pointingLoss; scanLoss := scanLoss;
     multipathLoss := multipathLoss; tSky := tSky;
     totalAtmosphericLoss := totalAtmosphericLoss; scintLoss := scintLoss;
     scintillationSigma := scintillationSigma;
     groupDelayNs := groupDelayNs; dispersionNs := dispersionNs;
     maxSymbolRateMbaud := maxSymbolRateMbaud |}.

(** ** CIR engine *)

(** The speed of light, m/s. *)
Definition C_M_S : float := 299792458.

(** [Array.prototype.reduce] with an initial value. *)
Definition reduce {A : Type} (f : float -> A -> float) (init : float)
    (a : list A) : float :=
  fold_left f a init.

(** An array index or length, as a number. *)
Definition of_nat (n : nat) : float :=
  of_uint63 (Uint63.of_Z (Z.of_nat n)).

(** An integer, as a number. *)
Definition of_Z (z : Z) : float :=
  if (z <? 0)%Z then - of_uint63 (Uint63.of_Z (- z))
  else of_uint63 (Uint63.of_Z z).

(** The taps pushed for [env]: sea reflection (maritime). *)
Definition seaTaps (env : option string) (losDelay_ns losAmplitude sinElev : float)
    : list ChannelTap :=
  if env_is env "maritime" then
    let h_rx := 15.0 in
    let pathDiff_m := 2 * h_rx * sinElev in
    let excessDelay_ns := (pathDiff_m / C_M_S) * 1e9 in
    let reflCoeff := -0.85 in
    let reflAmplitude := losAmplitude * abs reflCoeff in
    let reflPhase := PI in
    [ {| index := 1; label := SeaReflection;
         delay_ns := losDelay_ns + excessDelay_ns;
         excessDelay_ns := excessDelay_ns;
         amplitude_linear := reflAmplitude;
         amplitude_dB := 20 * log10 reflAmplitude;
         phase_rad := reflPhase |} ]
  else [].

(** One scatter component [sp] with its position [i] in [scatterParams];
    [len] is [taps.length] when it is pushed. *)
Definition scatterTap (len : nat) (sp : ScatterParam) (i : nat)
    (losDelay_ns losAmplitude_dB elevFactor simTime : float) : ChannelTap :=
  let scatterPower_dB := losAmplitude_dB + sp_power sp * elevFactor in
  let scatterAmplitude := pow 10 (scatterPower_dB / 20) in
  let phase :=
    if JS.gtb simTime 0
    then getSoSFade (Some (simTime + of_nat i * 7.3)) * PI
    else (of_nat i + 1) * 1.7 in
  {| index := len; label := sp_label sp;
     delay_ns := losDelay_ns + sp_delay sp;
     excessDelay_ns := sp_delay sp;
     amplitude_linear := scatterAmplitude;
     amplitude_dB := scatterPower_dB;
     phase_rad := phase |}.

(** [scatterParams.forEach((sp, i) => taps.push(...))] on the array
    [taps]. *)
Fixpoint pushScatter (taps : list ChannelTap) (sps : list ScatterParam)
    (i : nat) (losDelay_ns losAmplitude_dB elevFactor simTime : float)
    : list ChannelTap :=
  match sps with
  | [] => taps
  | sp :: rest =>
      pushScatter
        (taps ++ [scatterTap (List.length taps) sp i losDelay_ns losAmplitude_dB
                    elevFactor simTime])
        rest (S i) losDelay_ns losAmplitude_dB elevFactor simTime
  end.

(** The ionospheric dispersion of [computeCIR], with [tec || 50]. *)
Definition cirDispersionNs (tec freq sinElev : float) : float :=
  let tecVal := if JS.truthy tec then tec else 50 in
  (2.0 * 134.0 * tecVal * 0.4) / (pow freq 3 * sinElev).

(** The tap list of [computeCIR], from the scalars computed before it:
    the line-of-sight tap, then the taps pushed for the environment, then
    the ionospheric tap when the dispersion exceeds 0.01 ns. *)
Definition cirTaps (env : option string)
    (elevation simTime freq losDelay_ns losAmplitude losAmplitude_dB
     sinElev dispersionNs : float) : list ChannelTap :=
  (* tap 0: line of sight *)
  let taps :=
    [ {| index := 0; label := LOS; delay_ns := losDelay_ns;
         excessDelay_ns := 0; amplitude_linear := losAmplitude;
         amplitude_dB := losAmplitude_dB; phase_rad := 0 |} ] in
  (* tap 1: sea reflection *)
  let taps := taps ++ seaTaps env losDelay_ns losAmplitude sinElev in
  (* taps 2-3: building or vegetation scatter *)
  let taps :=
    if env_is env "urban" || env_is env "suburban" then
      let scatterParams :=
        if env_is env "urban" then urbanScatter else suburbanScatter in
      let elevFactor := JS.max 0.1 (1.0 - elevation / 90.0) in
      pushScatter taps scatterParams 0 losDelay_ns losAmplitude_dB
        elevFactor simTime
    else taps in
  (* tap N: ionospheric dispersion *)
  if JS.gtb dispersionNs 0.01 then
    let ionoPower_dB := losAmplitude_dB - 30 - 10 * log10 freq in
    let ionoAmplitude := pow 10 (ionoPower_dB / 20) in
    taps ++
    [ {| index := List.length taps; label := IonoDispersion;
         delay_ns := losDelay_ns + dispersionNs;
         excessDelay_ns := dispersionNs;
         amplitude_linear := ionoAmplitude;
         amplitude_dB := ionoPower_dB;
         phase_rad :=
           if JS.gtb simTime 0
           then getSoSFade (Some (simTime * 0.3)) * PI * 0.5
           else 0.5 |} ]
  else taps.

Definition computeCIR (params : LinkParams) : CIR :=
  let freq := JS.num (p_freq params) in
  let elevation := JS.num (p_elevation params) in
  let slantRange := JS.num (p_slantRange params) in
  let env := p_env params in
  let tec := JS.default (p_tec params) 50 in
  let rainRate := JS.default (p_rainRate params) 0 in
  let correctionFactor := JS.default (p_correctionFactor params) 1.0 in
  let simTime := JS.default (p_simTime params) 0 in
  let elevRad := JS.max 0.1 elevation * PI / 180 in
  let sinElev := sin elevRad in
  (* tap 0: line of sight *)
  let losDelay_ns := (slantRange * 1e3 / C_M_S) * 1e9 in
  let absoluteFspl := 20 * log10 slantRange + 20 * log10 freq + 92.45 in
  let '(k_coeff, alpha_coeff) := rainCoeffs freq in
  let gamma := k_coeff * pow rainRate alpha_coeff * correctionFactor in
  let heightRain := 3.0 in
  let slantPath := heightRain / sinElev in
  let rFactor := 1 / (1 + 0.045 * slantPath) in
  let attRain := gamma * slantPath * rFactor in
  let attZenithGas := zenithGas freq in
  let attGas := attZenithGas / sinElev in
  let K_l := 0.0002 * pow freq 1.95 in
  let L_content := 0.5 in
  let attCloud := (L_content * K_l) / sinElev in
  let totalAtmLoss := attRain + attGas + attCloud in
  let losAmplitude := pow 10 (- (absoluteFspl + totalAtmLoss) / 20) in
  let losAmplitude_dB := - (absoluteFspl + totalAtmLoss) in
  let dispersionNs := cirDispersionNs tec freq sinElev in
  let taps :=
    cirTaps env elevation simTime freq losDelay_ns losAmplitude
      losAmplitude_dB sinElev dispersionNs in
  (* statistics *)
  let totalPower :=
    reduce (fun s t => s + amplitude_linear t * amplitude_linear t) 0 taps in
  let meanDelay :=
    reduce (fun s t =>
              s + excessDelay_ns t * amplitude_linear t * amplitude_linear t)
      0 taps / totalPower in
  let meanDelaySq :=
    reduce (fun s t =>
              s + excessDelay_ns t * excessDelay_ns t * amplitude_linear t
                  * amplitude_linear t)
      0 taps / totalPower in
  let rmsDelaySpread_ns :=
    sqrt (JS.max 0 (meanDelaySq - meanDelay * meanDelay)) in
  let coherenceBandwidth_MHz :=
    if JS.gtb rmsDelaySpread_ns 0.001 then 1000.0 / (5.0 * rmsDelaySpread_ns)
    else 99999 in
  {| taps := taps; rmsDelaySpread_ns := rmsDelaySpread_ns;
     coherenceBandwidth_MHz := coherenceBandwidth_MHz;
     absoluteFspl := absoluteFspl; totalAtmLoss := totalAtmLoss |}.

(** ** MIMO capacity calculator *)

Definition calculateMIMOCapacity (snrDb xpdDb : float) : MIMOCapacity :=
  let snr := pow 10 (snrDb / 10) in
  let crosstalkPower := pow 10 (- xpdDb / 10) in
  let pSig := snr / 2 in
  let sinrSimple := pSig / (1 + pSig * crosstalkPower) in
  let capRank2 := 2 * log2 (1 + sinrSimple) in
  let capRank1 := log2 (1 + snr) in
  {| capRank2 := capRank2; capRank1 := capRank1 |}.

(** ** Calibration engine *)

Definition simulateForMeasurement (linkParams : LinkParams)
    (measurement : Measurement) : Prediction :=
  let testParams :=
    with_rainRate
      (with_elevation linkParams
         (Some (JS.or_else (m_elevation measurement)
                  (JS.or_else (p_elevation linkParams) 30))))
      (Some (match m_rainRate measurement with
             | Some r => r
             | None => JS.or_else (p_rainRate linkParams) 0
             end)) in
  let lb := calculateLinkBudget testParams in
  let freq := JS.or_else (p_freq linkParams) 30 in
  let eirp := JS.or_else (p_eirp linkParams) 60.0 in
  let gRx := JS.or_else (p_gRx linkParams) 42.0 in
  let tRx := JS.or_else (p_tRx linkParams) 150.0 in
  let bwMHz := JS.or_else (p_bandwidth linkParams) 400.0 in
  let slantRange := JS.or_else (p_slantRange linkParams) 35786 in
  let absoluteFspl := 20 * log10 slantRange + 20 * log10 freq + 92.45 in
  let absoluteLoss :=
    totalAtmosphericLoss lb + fadeLMS lb + lossFaraday lb + pointingLoss lb
    + JS.or_else (Some (scanLoss lb)) 0
    + JS.or_else (Some (multipathLoss lb)) 0 + absoluteFspl in
  let rxPowerDbm := eirp + 30 - absoluteLoss + gRx in
  let k_boltzmann := 1.380649e-23 in
  let tSys := tRx + tSky lb + 3.0 in
  let noisePowerW := k_boltzmann * tSys * (bwMHz * 1e6) in
  let noiseFloorDbm := 10 * log10 noisePowerW + 30 in
  let cn0 := JS.max (-30) (rxPowerDbm - noiseFloorDbm) in
  {| predictedCN0 := cn0; predictedRSSI := rxPowerDbm;
     predictedXPD := xpd lb; predictedAtten := totalAtmosphericLoss lb;
     predictedTotalLoss := totalLoss lb |}.

(** The residuals one measurement contributes, in push order. *)
Definition residualsOf (sim : Prediction) (m : Measurement) : list float :=
  (match measuredCN0_dB m with
   | Some v => [(predictedCN0 sim - v) * 2.0]
   | None => []
   end)
  ++ (match measuredRSSI_dBm m with
      | Some v => [(predictedRSSI sim - v) * 1.5]
      | None => []
      end)
  ++ (match measuredXPD_dB m with
      | Some v => [(predictedXPD sim - v) * 1.0]
      | None => []
      end)
  ++ (match measuredAttenuation_dB m with
      | Some v => [(predictedAtten sim - v) * 1.5]
      | None => []
      end)
  ++ (match measuredLoss m, measuredCN0_dB m with
      | Some v, None => [(predictedTotalLoss sim - v) * 1.0]
      | _, _ => []
      end).

Definition computeResiduals (measurements : list Measurement)
    (linkParams : LinkParams) (calibParams : CalibParams) : list float :=
  let testProfile :=
    {| calibrated := true; timestamp := None; dataPointCount := 0;
       residualRMS := 0; refSatellite := None; params := calibParams |} in
  let calibratedParams := applyCalibration linkParams (Some testProfile) in
  fold_left
    (fun residuals m =>
       let sim := simulateForMeasurement calibratedParams m in
       residuals ++ residualsOf sim m)
    measurements [].

(** The numerical Jacobian: one column of finite differences per
    parameter. *)
Definition jacobian (measurements : list Measurement)
    (effectiveParams : LinkParams) (calibParams : CalibParams)
    (residuals : list float) : list (list float) :=
  map
    (fun def =>
       let delta := JS.max (d_step def * 0.1) 1e-6 in
       let savedVal := JS.num (cp_get calibParams (d_key def)) in
       let rPlus :=
         computeResiduals measurements effectiveParams
           (cp_set calibParams (d_key def) (savedVal + delta)) in
       map (fun r => (JS.get rPlus r - JS.get residuals r) / delta)
         (seq 0 (List.length residuals)))
    CALIB_PARAM_DEFS.

(** The step [dp] of one damped Gauss-Newton iteration. *)
Definition gaussNewtonStep (measurements : list Measurement)
    (effectiveParams : LinkParams) (calibParams : CalibParams) : list float :=
  let dampingFactor := 0.01 in
  let residuals := computeResiduals measurements effectiveParams calibParams in
  let nParams := List.length CALIB_PARAM_DEFS in
  let nResiduals := List.length residuals in
  let J := jacobian measurements effectiveParams calibParams residuals in
  let JtJ :=
    map (fun i =>
           map (fun j => sumFor nResiduals 0 (fun r => get2 J i r * get2 J j r))
             (seq 0 nParams))
      (seq 0 nParams) in
  let JtR :=
    map (fun i => sumFor nResiduals 0 (fun r => get2 J i r * JS.get residuals r))
      (seq 0 nParams) in
  let JtJ :=
    fold_left
      (fun JtJ i =>
         JS.set JtJ i
           (JS.set (nth i JtJ []) i
              (get2 JtJ i i + dampingFactor * (get2 JtJ i i + 1e-8))))
      (seq 0 nParams) JtJ in
  let '(A, b) := fold_left (eliminateCol nParams) (seq 0 nParams) (JtJ, JtR) in
  backSubstitute nParams A b.

(** The bounded parameter update: the new parameters and [maxStep]. *)
Definition updateParams (calibParams : CalibParams) (dp : list float)
    : CalibParams * float :=
  fold_left
    (fun (st : CalibParams * float) p =>
       let '(calibParams, maxStep) := st in
       match nth_error CALIB_PARAM_DEFS p with
       | None => st
       | Some def =>
           let cur := JS.num (cp_get calibParams (d_key def)) in
           let newVal :=
             JS.max (d_min def) (JS.min (d_max def) (cur - JS.get dp p)) in
           (cp_set calibParams (d_key def) newVal,
            JS.max maxStep (abs (newVal - cur)))
       end)
    (seq 0 (List.length CALIB_PARAM_DEFS)) (calibParams, 0).

(** [for (let iter = 0; iter < maxIterations; iter++) { ... }], with
    [remaining] iterations left. *)
Fixpoint iterate (remaining : nat) (measurements : list Measurement)
    (effectiveParams : LinkParams) (calibParams : CalibParams) : CalibParams :=
  match remaining with
  | O => calibParams
  | S remaining' =>
      let convergenceThreshold := 1e-6 in
      let dp := gaussNewtonStep measurements effectiveParams calibParams in
      let '(calibParams, maxStep) := updateParams calibParams dp in
      if maxStep <? convergenceThreshold then calibParams
      else iterate remaining' measurements effectiveParams calibParams
  end.

(** [calibrateModel]; an absent measurement list is [None]. *)
Definition calibrateModel (amb : Ambient)
    (measurements : option (list Measurement)) (linkParams : LinkParams)
    (refSat : option RefSatellite) : CalibrationProfile :=
  match measurements with
  | None | Some [] => createDefaultCalibration
  | Some measurements =>
      let effectiveParams :=
        match refSat with
        | Some rs => with_eirp (with_freq linkParams (rs_freq rs)) (rs_eirp rs)
        | None => linkParams
        end in
      let maxIterations := 30%nat in
      let calibParams :=
        iterate maxIterations measurements effectiveParams defaultCalibParams in
      let finalResiduals :=
        computeResiduals measurements effectiveParams calibParams in
      let rmsResidual :=
        sqrt (reduce (fun s r => s + r * r) 0 finalResiduals
              / JS.max 1 (of_nat (List.length finalResiduals))) in
      {| calibrated := true;
         timestamp := Some (nowISO amb);
         dataPointCount := List.length measurements;
         residualRMS := rmsResidual;
         refSatellite :=
           match refSat with Some rs => rs_satName rs | None => None end;
         params := calibParams |}
  end.

(** ** Time-series generator *)

Section TimeSeries.

Variable amb : Ambient.
Variable look : Propagator.
Variables endTime stepSec : Z.
Variable linkParams : LinkParams.

(** [lbParams] of a frame: the link parameters with the geometry of the
    frame. *)
Definition lbParamsAt (frameIndex : nat) (la : LookAngles) : LinkParams :=
  let elev := la_elevation la in
  let range := la_rangeSat la in
  let simTimeSec := of_nat frameIndex * of_Z stepSec in
  with_simTime
    (with_slantRange
       (with_elevation linkParams (Some (JS.max 0.1 elev)))
       (Some range))
    (Some (if p_disableFastFading linkParams then 0 else simTimeSec)).

(** The parameters handed to [computeCIR] for a frame. *)
Definition cirParamsAt (frameIndex : nat) (la : LookAngles) : LinkParams :=
  with_freq (lbParamsAt frameIndex la)
    (Some (JS.or_else (p_freq linkParams) 30)).

(** The frame pushed for date [t] with look angles [la]. *)
Definition frameAt (frameIndex : nat) (t : Z) (la : LookAngles)
    : TimelineFrame :=
  let k_boltzmann := 1.380649e-23 in
  let elev := la_elevation la in
  let az := la_azimuth la in
  let range := la_rangeSat la in
  let lb := calculateLinkBudget (lbParamsAt frameIndex la) in
  let absoluteFspl :=
    20 * log10 range + 20 * log10 (JS.or_else (p_freq linkParams) 30)
    + 92.45 in
  let eirp := JS.or_else (p_eirp linkParams) 60.0 in
  let gRx := JS.or_else (p_gRx linkParams) 42.0 in
  let tRx := JS.or_else (p_tRx linkParams) 150.0 in
  let bwMHz := JS.or_else (p_bandwidth linkParams) 400.0 in
  let absoluteLoss :=
    totalAtmosphericLoss lb + fadeLMS lb + lossFaraday lb + pointingLoss lb
    + JS.or_else (Some (scanLoss lb)) 0
    + JS.or_else (Some (multipathLoss lb)) 0
    + JS.or_else (Some (scintLoss lb)) 0 + absoluteFspl in
  let rxPowerDbm := eirp + 30 - absoluteLoss + gRx in
  let tSys := tRx + tSky lb + 3.0 in
  let noisePowerW := k_boltzmann * tSys * (bwMHz * 1e6) in
  let noiseFloorDbm := 10 * log10 noisePowerW + 30 in
  let snrDb := JS.max (-30) (rxPowerDbm - noiseFloorDbm) in
  let cap := calculateMIMOCapacity snrDb (xpd lb) in
  let cir := computeCIR (cirParamsAt frameIndex la) in
  {| fr_time := t;
     fr_timeLabel := toLocaleTimeString amb t;
     fr_frameIndex := frameIndex;
     fr_elevation := elev;
     fr_azimuth := az;
     fr_slantRange := range;
     fr_apparentElevation := apparentElevation lb;
     fr_absoluteFspl := absoluteFspl;
     fr_rxPowerDbm := rxPowerDbm;
     fr_noiseFloorDbm := noiseFloorDbm;
     fr_snrDb := snrDb;
     fr_attRain := attRain lb;
     fr_attGas := attGas lb;
     fr_attCloud := attCloud lb;
     fr_totalAtmosphericLoss := totalAtmosphericLoss lb;
     fr_fadeLMS := fadeLMS lb;
     fr_lossFaraday := lossFaraday lb;
     fr_pointingLoss := pointingLoss lb;
     fr_scanLoss := JS.or_else (Some (scanLoss lb)) 0;
     fr_multipathLoss := JS.or_else (Some (multipathLoss lb)) 0;
     fr_scintLoss := JS.or_else (Some (scintLoss lb)) 0;
     fr_tSky := tSky lb;
     fr_xpd := xpd lb;
     fr_capRank1 := capRank1 cap;
     fr_capRank2 := capRank2 cap;
     fr_groupDelayNs := groupDelayNs lb;
     fr_dispersionNs := dispersionNs lb;
     fr_cir := cir |}.

(** [for (let t = startTime; t <= endTime; t += stepSec * 1000)] from the
    state ([t], [frameIndex], [timeline]); [None] when [fuel] iterations
    do not reach the end of the loop. *)
Fixpoint timeLoop (fuel : nat) (t : Z) (frameIndex : nat)
    (timeline : list TimelineFrame) : option (list TimelineFrame) :=
  match fuel with
  | O => None
  | S fuel' =>
      if (t <=? endTime)%Z then
        match look t with
        | None => timeLoop fuel' (t + stepSec * 1000)%Z frameIndex timeline
        | Some la =>
            timeLoop fuel' (t + stepSec * 1000)%Z (S frameIndex)
              (timeline ++ [frameAt frameIndex t la])
        end
      else Some timeline
  end.

End TimeSeries.

(** [generateChannelTimeSeries]. The two-line elements and the observer
    reach the model as the propagator they determine; [None] for
    [satrec] stands for an exception of the orbit library, which the
    [try]/[catch] turns into the empty timeline. The result is [None]
    when the loop needs more than [fuel] iterations. *)
Definition generateChannelTimeSeries (fuel : nat) (amb : Ambient)
    (satrec : option Propagator) (startTime endTime stepSec : Z)
    (linkParams : LinkParams) : option (list TimelineFrame) :=
  match satrec with
  | None => Some []
  | Some look =>
      timeLoop amb look endTime stepSec linkParams fuel startTime 0 []
  end.

End Model.


(** * The other operations of [src/model.js] *)

(** ** Data *)

Definition with_correctionFactor (p : LinkParams) (v : JS.opt) : LinkParams := {|
  p_freq := p_freq p; p_rainRate := p_rainRate p; p_elevation := p_elevation p;
  p_env := p_env p; p_tec := p_tec p; p_xpdAnt := p_xpdAnt p;
  p_correctionFactor := v; p_slantRange := p_slantRange p;
  p_hpbw := p_hpbw p; p_simTime := p_simTime p;
  p_gasAttenOffset_dB := p_gasAttenOffset_dB p;
  p_scatterPowerOffset_dB := p_scatterPowerOffset_dB p;
  p_isPhasedArray := p_isPhasedArray p;
  p_disableFastFading := p_disableFastFading p;
  p_bandwidth := p_bandwidth p; p_eirp := p_eirp p; p_gRx := p_gRx p;
  p_tRx := p_tRx p
|}.

Definition with_scatterPowerOffset_dB (p : LinkParams) (v : JS.opt)
    : LinkParams := {|
  p_freq := p_freq p; p_rainRate := p_rainRate p; p_elevation := p_elevation p;
  p_env := p_env p; p_tec := p_tec p; p_xpdAnt := p_xpdAnt p;
  p_correctionFactor := p_correctionFactor p; p_slantRange := p_slantRange p;
  p_hpbw := p_hpbw p; p_simTime := p_simTime p;
  p_gasAttenOffset_dB := p_gasAttenOffset_dB p;
  p_scatterPowerOffset_dB := v;
  p_isPhasedArray := p_isPhasedArray p;
  p_disableFastFading := p_disableFastFading p;
  p_bandwidth := p_bandwidth p; p_eirp := p_eirp p; p_gRx := p_gRx p;
  p_tRx := p_tRx p
|}.

(** A pass of [predictPasses]: acquisition, closest approach and loss of
    signal as dates (ms), the maximum elevation and the duration in
    seconds. [tca] holds [tcaTime], [None] for [null]. *)
Record Pass : Type := {
  aos : Z;
  tca : option Z;
  los : Z;
  maxElev : float;
  durationSec : float
}.

(** The variables of the scan of [predictPasses]. [aosTime] and [tcaTime]
    are [None] for [null]. *)
Record ScanState : Type := {
  passes : list Pass;
  inPass : bool;
  aosTime : option Z;
  scanMaxElev : float;
  tcaTime : option Z
}.


(** The sub-satellite point the orbit library yields for a date: latitude
    and longitude in degrees, height in km. *)
Record Geodetic : Type := {
  gd_latitude : float;
  gd_longitude : float;
  gd_height : float
}.

(** [propagate], [gstime] and [eciToGeodetic] for one satellite: the
    sub-satellite point at a date, or [None] without a position. *)
Definition GeoPropagator : Type := Z -> option Geodetic.

(** A point of the ground track. *)
Record GroundPoint : Type := {
  gp_lat : float;
  gp_lon : float;
  gp_alt : float;
  gp_isCurrent : bool
}.

(** A point of the sky track. *)
Record SkyPoint : Type := {
  sk_az : float;
  sk_elev : float;
  sk_isCurrent : bool
}.

(** [for (let x = from; x <= to; x += step)] with a positive constant [step]:
    the values [x] takes. *)
Fixpoint forRangeFrom (n : nat) (x step : Z) : list Z :=
  match n with
  | O => []
  | S n' => x :: forRangeFrom n' (x + step)%Z step
  end.

Definition forRange (from to step : Z) : list Z :=
  forRangeFrom
    (if (from <=? to)%Z then S (Z.to_nat ((to - from) / step)) else O)
    from step.

Section MoreModel.

Variable M : MathLib.

#[local] Abbreviation pow := (m_pow M).

(** ** Least-squares fit of the rain correction factor *)

(** [errorSum] of [fitModelToData] for one [factor]. *)
Definition fitErrorSum (realData : list Measurement)
    (currentParams : LinkParams) (factor : float) : float :=
  fold_left
    (fun errorSum point =>
       match m_rainRate point, measuredLoss point with
       | Some rainRate, Some measured =>
           let testParams :=
             with_correctionFactor
               (with_rainRate currentParams (Some rainRate)) (Some factor) in
           let theoretical := totalLoss (calculateLinkBudget M testParams) in
           errorSum + pow (theoretical - measured) 2
       | _, _ => errorSum
       end)
    realData 0.

(** [for (let factor = ...; factor <= 2.5; factor += 0.05) { ... }] from the
    state ([factor], [bestFactor], [minError]), where [err factor] is the
    error sum of the body; [None] when [fuel] iterations do not reach the
    end of the loop. *)
Fixpoint gridSearch (err : float -> float) (fuel : nat)
    (factor bestFactor minError : float) : option float :=
  match fuel with
  | O => None
  | S fuel' =>
      if factor <=? 2.5 then
        let errorSum := err factor in
        if errorSum <? minError
        then gridSearch err fuel' (factor + 0.05) factor errorSum
        else gridSearch err fuel' (factor + 0.05) bestFactor minError
      else Some bestFactor
  end.

(** [fitModelToData]; an absent data list is [None]. *)
Definition fitModelToData (fuel : nat) (realData : option (list Measurement))
    (currentParams : LinkParams) : option float :=
  match realData with
  | None | Some [] => Some 1.0
  | Some realData =>
      gridSearch (fitErrorSum realData currentParams) fuel 0.5 1.0 infinity
  end.

(** ** Pass prediction *)

(** [getElev]: the elevation in degrees, -999 without a position. *)
Definition getElev (look : Propagator) (date : Z) : float :=
  match look date with
  | Some la => la_elevation la
  | None => -999
  end.

(** The first date of [for (rt = t - stepMs; rt <= t; rt += fineStepMs)]
    at which [test (getElev rt)] holds: the [break] of a refinement. *)
Definition refine (look : Propagator) (test : float -> bool) (t : Z)
    : option Z :=
  find (fun rt => test (getElev look rt)) (forRange (t - 60000) t 5000).

(** One iteration of the coarse scan, at date [t]; [None] when the
    iteration throws ([aosTime.getTime()] on [null]). *)
Definition scanStep (look : Propagator) (minElev : float) (st : ScanState)
    (t : Z) : option ScanState :=
  let elev := getElev look t in
  if elev =? -999 then Some st
  else if JS.gtb elev minElev && negb (inPass st) then
    (* acquisition of signal, refined backwards *)
    let aosTime :=
      match refine look (fun e => JS.gtb e minElev) t with
      | Some rt => Some rt
      | None => aosTime st
      end in
    let aosTime := match aosTime with Some a => Some a | None => Some t end in
    Some {| passes := passes st; inPass := true; aosTime := aosTime;
            scanMaxElev := elev; tcaTime := Some t |}
  else if JS.gtb elev (scanMaxElev st) && inPass st then
    Some {| passes := passes st; inPass := true; aosTime := aosTime st;
            scanMaxElev := elev; tcaTime := Some t |}
  else if (elev <=? minElev) && inPass st then
    (* loss of signal, refined *)
    let losTime :=
      match refine look (fun e => e <=? minElev) t with
      | Some rt => rt
      | None => t
      end in
    match aosTime st with
    | None => None
    | Some aosT =>
        let durationSec := of_Z (losTime - aosT) / 1000 in
        let passes :=
          if (1.0 <=? scanMaxElev st) && (30 <=? durationSec)
          then passes st
               ++ [ {| aos := aosT; tca := tcaTime st; los := losTime;
                       maxElev := scanMaxElev st;
                       durationSec := durationSec |} ]
          else passes st in
        Some {| passes := passes; inPass := false; aosTime := None;
                scanMaxElev := -90; tcaTime := None |}
    end
  else Some st.

(** The state before the scan. *)
Definition scanStart : ScanState :=
  {| passes := []; inPass := false; aosTime := None; scanMaxElev := -90;
     tcaTime := None |}.

(** The coarse scan over the dates [ts]. *)
Fixpoint scan (look : Propagator) (minElev : float) (ts : list Z)
    (st : ScanState) : option ScanState :=
  match ts with
  | [] => Some st
  | t :: rest =>
      match scanStep look minElev st t with
      | Some st' => scan look minElev rest st'
      | None => None
      end
  end.

(** [predictPasses]. [now] is the wall clock at the call, in ms; [None]
    for [satrec] stands for an exception of the orbit library; the
    [try]/[catch] turns every exception into the empty list; [hoursAhead]
    is a whole number of hours. *)
Definition predictPasses (now : Z) (satrec : option Propagator)
    (hoursAhead : Z) (minElev : float) : list Pass :=
  match satrec with
  | None => []
  | Some look =>
      let endTime := (now + hoursAhead * 3600000)%Z in
      match scan look minElev (forRange now endTime 60000) scanStart with
      | Some st => passes st
      | None => []
      end
  end.

(** ** Replay of a pass *)

Section Replay.

Variable amb : Ambient.
Variable look : Propagator.
Variables endTime stepSec : Z.
Variable linkParams : LinkParams.



End Replay.


End MoreModel.

(** ** Ground track and sky track *)

(** [computeGroundTrack]: one point per minute from 10 minutes before [now]
    to [minutesAhead] minutes after it, for the dates with a position. *)
Definition computeGroundTrack (now : Z) (satrec : option GeoPropagator)
    (minutesAhead : Z) : list GroundPoint :=
  match satrec with
  | None => []
  | Some geo =>
      fold_left
        (fun points m =>
           match geo (now + m * 60000)%Z with
           | None => points
           | Some geodetic =>
               points
               ++ [ {| gp_lat := gd_latitude geodetic;
                       gp_lon := gd_longitude geodetic;
                       gp_alt := gd_height geodetic;
                       gp_isCurrent := (m =? 0)%Z |} ]
           end)
        (forRange (-10) minutesAhead 1) []
  end.

(** [computeSkyTrack]. *)
Definition computeSkyTrack (now : Z) (satrec : option Propagator)
    (minutesAhead : Z) : list SkyPoint :=
  match satrec with
  | None => []
  | Some look =>
      fold_left
        (fun points m =>
           match look (now + m * 60000)%Z with
           | None => points
           | Some la =>
               points
               ++ [ {| sk_az := la_azimuth la; sk_elev := la_elevation la;
                       sk_isCurrent := (m =? 0)%Z |} ]
           end)
        (forRange (-10) minutesAhead 1) []
  end.

(** [calculateDynamicOrbit]: the look angles at [date], [None] ([null])
    without a position or when the orbit library throws. *)
Definition calculateDynamicOrbit (satrec : option Propagator) (date : Z)
    : option LookAngles :=
  match satrec with
  | None => None
  | Some look => look date
  end.

(** * Properties *)

(** ** The specification's reading of the formulas *)

(** The tap labels the specification expects for an environment, given
    whether the ionospheric dispersion exceeds its threshold: line of sight,
    then sea reflection, then the two scatter components, then the
    ionospheric tap. *)
Definition expectedLabels (env : option string) (aboveThreshold : bool)
    : list TapLabel :=
  [LOS]
  ++ (if env_is env "maritime" then [SeaReflection] else [])
  ++ (if env_is env "urban" then [BuildingNear; BuildingFar]
      else if env_is env "suburban" then [VegetationNear; VegetationFar]
      else [])
  ++ (if aboveThreshold then [IonoDispersion] else []).

(** The threshold test of the ionospheric tap: dispersion above 0.01 ns. *)
Definition ionoAboveThreshold (M : MathLib) (params : LinkParams) : bool :=
  let freq := JS.num (p_freq params) in
  let elevation := JS.num (p_elevation params) in
  let sinElev := m_sin M (JS.max 0.1 elevation * JS.PI / 180) in
  JS.gtb (cirDispersionNs M (JS.default (p_tec params) 50) freq sinElev) 0.01.

(** The ionospheric dispersion of the CIR engine at 50 TECU, in ns:
    [2 * 134 * 50 * 0.4 / (freq^3 * sin(max(0.1, elevation)))]. *)
Definition dispersionAtFifty (M : MathLib) (params : LinkParams) : float :=
  let freq := JS.num (p_freq params) in
  let sinElev :=
    m_sin M (JS.max 0.1 (JS.num (p_elevation params)) * JS.PI / 180) in
  (2.0 * 134.0 * 50 * 0.4) / (m_pow M freq 3 * sinElev).

(** The scintillation sigma of the link budget at 50 TECU, for a frequency
    and an apparent elevation: the tropospheric deviation
    [0.025 freq^0.58 / sinElev^1.2] and the ionospheric deviation
    [(50 / 100) (2 / freq^1.5) / sinElev^1.2] in quadrature, with
    [sinElev] floored at 0.01. *)
Definition sigmaAtFifty (M : MathLib) (freq effElev : float) : float :=
  let sinElev := JS.max 0.01 (m_sin M (effElev * JS.PI / 180.0)) in
  let sigmaTropo := 0.025 * m_pow M freq 0.58 / m_pow M sinElev 1.2 in
  let sigmaIono :=
    (50 / 100.0) * (2.0 / m_pow M freq 1.5) / m_pow M sinElev 1.2 in
  sqrt (sigmaTropo * sigmaTropo + sigmaIono * sigmaIono).

(** The tap list carries an ionospheric tap. *)
Definition hasIonoTap (cir : CIR) : bool :=
  existsb (fun t => TapLabel_eqb (label t) IonoDispersion) (taps cir).

(** A rural Ku-band link at 45 degrees of elevation, in clear sky. *)
Definition ruralKuParams : LinkParams := {|
  p_freq := Some 12.0; p_rainRate := Some 0; p_elevation := Some 45;
  p_env := Some "rural"%string;
  p_tec := None; p_xpdAnt := None; p_correctionFactor := None;
  p_slantRange := Some 35786; p_hpbw := None; p_simTime := None;
  p_gasAttenOffset_dB := None; p_scatterPowerOffset_dB := None;
  p_isPhasedArray := false; p_disableFastFading := false;
  p_bandwidth := None; p_eirp := None; p_gRx := None; p_tRx := None
|}.

(** The capacities as the specification writes them: rank 1 is
    [log2(1 + SNR_linear)] with [SNR_linear = 10^(snrDb/10)]; rank 2 is
    [2 log2(1 + SINR)] with
    [SINR = (SNR_linear/2) / (1 + (SNR_linear/2) 10^(-xpdDb/10))]. *)
Definition capacitySpec (M : MathLib) (snrDb xpdDb : float) : float * float :=
  let SNR_linear := m_pow M 10 (snrDb / 10) in
  let SINR :=
    (SNR_linear / 2) / (1 + (SNR_linear / 2) * m_pow M 10 (- xpdDb / 10)) in
  (m_log2 M (1 + SNR_linear), 2 * m_log2 M (1 + SINR)).

(** ** Intermediate quantities of the link budget *)

(** The refraction correction for a geometric elevation. *)
Definition refractionOf (M : MathLib) (elevation : float) : float :=
  1.02
  / m_tan M ((JS.max 0 elevation + 10.3 / (JS.max 0 elevation + 5.11))
             * JS.PI / 180)
  / 60.0.

(** The refraction correction at and below the horizon. *)
Definition horizonRefraction (M : MathLib) : float :=
  1.02 / m_tan M ((0 + 10.3 / (0 + 5.11)) * JS.PI / 180) / 60.0.

(** The apparent elevation in radians. *)
Definition elevRadOf (M : MathLib) (params : LinkParams) : float :=
  let elevation := JS.num (p_elevation params) in
  ((elevation + refractionOf M elevation) * JS.PI) / 180.

(** The floored sine of the apparent elevation. *)
Definition sinElevOf (M : MathLib) (params : LinkParams) : float :=
  let elevation := JS.num (p_elevation params) in
  JS.max 0.01
    (m_sin M ((elevation + refractionOf M elevation) * JS.PI / 180.0)).

(** The effective path length through rain. *)
Definition lEffOf (M : MathLib) (params : LinkParams) : float :=
  let slantPath := 3.0 / m_sin M (elevRadOf M params) in
  slantPath * (1 / (1 + 0.045 * slantPath)).

(** ** Inputs of the examples *)

(** The parameters of the unit tests of the model: 30 GHz, no rain,
    suburban, zenith. *)
Definition testDefaults : LinkParams := {|
  p_freq := Some 30.0; p_rainRate := Some 0; p_elevation := Some 90;
  p_env := Some "suburban"%string;
  p_tec := None; p_xpdAnt := None; p_correctionFactor := None;
  p_slantRange := None; p_hpbw := None; p_simTime := None;
  p_gasAttenOffset_dB := None; p_scatterPowerOffset_dB := None;
  p_isPhasedArray := false; p_disableFastFading := false;
  p_bandwidth := None; p_eirp := None; p_gRx := None; p_tRx := None
|}.

(** A frequency above zero whose square underflows. *)
Definition tinyFrequency : float := 1e-200.

(** The link parameters the calibration panel passes to [calibrateModel]. *)
Definition panelParams : LinkParams := {|
  p_freq := Some 30.0; p_rainRate := Some 5.0; p_elevation := None;
  p_env := Some "suburban"%string;
  p_tec := Some 50; p_xpdAnt := None; p_correctionFactor := None;
  p_slantRange := None; p_hpbw := None; p_simTime := None;
  p_gasAttenOffset_dB := None; p_scatterPowerOffset_dB := None;
  p_isPhasedArray := false; p_disableFastFading := false;
  p_bandwidth := Some 400; p_eirp := Some 60; p_gRx := Some 42;
  p_tRx := Some 150
|}.

(** A measurement point with a rain rate and a measured attenuation. *)
Definition attenuationPoint (rain atten : float) : Measurement := {|
  m_elevation := None; m_rainRate := Some rain; measuredCN0_dB := None;
  measuredRSSI_dBm := None; measuredXPD_dB := None;
  measuredAttenuation_dB := Some atten; measuredLoss := None
|}.

(** A parameter value within the bounds of its definition. *)
Definition withinBounds (def : CalibParamDef) (v : float) : bool :=
  (d_min def <=? v) && (v <=? d_max def).

(** Every parameter of [c] is assigned and is within its bounds or NaN. *)
Definition boundedOrNaN (c : CalibParams) : Prop :=
  forall def, In def CALIB_PARAM_DEFS ->
    exists v, cp_get c (d_key def) = Some v
              /\ is_nan v || withinBounds def v = true.

(** ** The time grid of the generators *)

(** [n] dates from [t], [step] apart. *)
Fixpoint gridFrom (n : nat) (t step : Z) : list Z :=
  match n with
  | O => []
  | S n' => t :: gridFrom n' (t + step)%Z step
  end.

(** How many dates [startTime, startTime + step, ...] are at most
    [endTime]. *)
Definition gridSize (startTime endTime step : Z) : nat :=
  if (startTime <=? endTime)%Z
  then S (Z.to_nat ((endTime - startTime) / step))
  else O.

(** The dates the loop [for (t = startTime; t <= endTime; t += step)]
    visits. *)
Definition timeGrid (startTime endTime step : Z) : list Z :=
  gridFrom (gridSize startTime endTime step) startTime step.

(** The propagator resolves a position at [t]. *)
Definition resolved (look : Propagator) (t : Z) : bool :=
  match look t with Some _ => true | None => false end.

(** The frames for the dates [ts], numbering from [frameIndex] the dates
    that resolve. *)
Fixpoint framesOver (M : MathLib) (amb : Ambient) (look : Propagator)
    (stepSec : Z) (linkParams : LinkParams) (frameIndex : nat) (ts : list Z)
    : list TimelineFrame :=
  match ts with
  | [] => []
  | t :: rest =>
      match look t with
      | None => framesOver M amb look stepSec linkParams frameIndex rest
      | Some la =>
          frameAt M amb stepSec linkParams frameIndex t la
          :: framesOver M amb look stepSec linkParams (S frameIndex) rest
      end
  end.

(** The loss decomposition and the ionospheric figures a frame reports. *)
Definition frameBudget (fr : TimelineFrame) : list float :=
  [fr_apparentElevation fr; fr_attRain fr; fr_attGas fr; fr_attCloud fr;
   fr_totalAtmosphericLoss fr; fr_fadeLMS fr; fr_lossFaraday fr;
   fr_pointingLoss fr; fr_scanLoss fr; fr_multipathLoss fr; fr_scintLoss fr;
   fr_tSky fr; fr_xpd fr; fr_groupDelayNs fr; fr_dispersionNs fr].

(** The same figures read off a link budget, in the same order; an absent
    scan, multipath or scintillation loss reads as 0. *)
Definition budgetFigures (lb : LinkBudget) : list float :=
  [apparentElevation lb; attRain lb; attGas lb; attCloud lb;
   totalAtmosphericLoss lb; fadeLMS lb; lossFaraday lb; pointingLoss lb;
   JS.or_else (Some (scanLoss lb)) 0; JS.or_else (Some (multipathLoss lb)) 0;
   JS.or_else (Some (scintLoss lb)) 0;
   tSky lb; xpd lb; groupDelayNs lb; dispersionNs lb].

(** The received power, the noise floor and the SNR of a frame, from the
    link budget [lb] of the frame: the absolute free-space loss at the
    slant range, the power [eirp + 30 - loss + gRx], the noise of the system
    temperature [tRx + tSky + 3] in the bandwidth, and the SNR floored at
    -30 dB. *)
Definition frameSignalFrom (M : MathLib) (linkParams : LinkParams)
    (range : float) (lb : LinkBudget) (fr : TimelineFrame) : Prop :=
  let absoluteFspl :=
    20 * m_log10 M range
    + 20 * m_log10 M (JS.or_else (p_freq linkParams) 30) + 92.45 in
  let absoluteLoss :=
    totalAtmosphericLoss lb + fadeLMS lb + lossFaraday lb + pointingLoss lb
    + JS.or_else (Some (scanLoss lb)) 0
    + JS.or_else (Some (multipathLoss lb)) 0
    + JS.or_else (Some (scintLoss lb)) 0 + absoluteFspl in
  let tSys := JS.or_else (p_tRx linkParams) 150.0 + tSky lb + 3.0 in
  let noisePowerW :=
    1.380649e-23 * tSys * (JS.or_else (p_bandwidth linkParams) 400.0 * 1e6) in
  fr_absoluteFspl fr = absoluteFspl
  /\ fr_rxPowerDbm fr
     = JS.or_else (p_eirp linkParams) 60.0 + 30 - absoluteLoss
       + JS.or_else (p_gRx linkParams) 42.0
  /\ fr_noiseFloorDbm fr = 10 * m_log10 M noisePowerW + 30
  /\ fr_snrDb fr = JS.max (-30) (fr_rxPowerDbm fr - fr_noiseFloorDbm fr)
  /\ fr_capRank1 fr = capRank1 (calculateMIMOCapacity M (fr_snrDb fr) (xpd lb))
  /\ fr_capRank2 fr = capRank2 (calculateMIMOCapacity M (fr_snrDb fr) (xpd lb)).

(** What a frame keeps of the geometry and what its engines are fed: the
    frame reports the look angles of the propagator at its date unchanged,
    while every figure of its link budget, its signal levels, its
    capacities and its CIR come from the engines run at the elevation
    [Math.max(0.1, elevation)], the slant range of the propagator and the
    simulation time of the frame. *)
Definition frameFromGeometry (M : MathLib) (look : Propagator) (stepSec : Z)
    (linkParams : LinkParams) (fr : TimelineFrame) : Prop :=
  exists la,
    look (fr_time fr) = Some la
    /\ fr_elevation fr = la_elevation la
    /\ fr_azimuth fr = la_azimuth la
    /\ fr_slantRange fr = la_rangeSat la
    /\ (let floored := JS.max 0.1 (la_elevation la) in
        let simTime :=
          if p_disableFastFading linkParams then 0
          else of_nat (fr_frameIndex fr) * of_Z stepSec in
        let fed :=
          with_simTime
            (with_slantRange (with_elevation linkParams (Some floored))
               (Some (la_rangeSat la)))
            (Some simTime) in
        let lb := calculateLinkBudget M fed in
        ((la_elevation la <? 0.1) = true -> floored = 0.1)
        /\ frameBudget fr = budgetFigures lb
        /\ frameSignalFrom M linkParams (la_rangeSat la) lb fr
        /\ fr_cir fr
           = computeCIR M
               (with_freq fed (Some (JS.or_else (p_freq linkParams) 30)))).

(** A propagator for the examples: below the horizon at date 0, no position
    at 10 s, in view afterwards. *)
Definition examplePropagator : Propagator :=
  fun t =>
    if (t =? 0)%Z then
      Some {| la_elevation := -5; la_azimuth := 110; la_rangeSat := 2400 |}
    else if (t =? 10000)%Z then None
    else Some {| la_elevation := 20; la_azimuth := 120; la_rangeSat := 1300 |}.

(** An ambient state for the examples. *)
Definition exampleAmbient : Ambient :=
  {| nowISO := "2024-01-01T00:00:00.000Z"%string;
     toLocaleTimeString := fun _ => ""%string |}.

(** The states of the world that differ in the wall clock only. *)
Definition ambientAt (iso : string) : Ambient :=
  {| nowISO := iso; toLocaleTimeString := fun _ => ""%string |}.

(** ** Residuals *)

(** How many residuals a measurement point contributes: one per populated
    metric; the legacy [measuredLoss] counts only without [measuredCN0_dB]. *)
Definition residualCount (m : Measurement) : nat :=
  (match measuredCN0_dB m with Some _ => 1 | None => 0 end)
  + (match measuredRSSI_dBm m with Some _ => 1 | None => 0 end)
  + (match measuredXPD_dB m with Some _ => 1 | None => 0 end)
  + (match measuredAttenuation_dB m with Some _ => 1 | None => 0 end)
  + (match measuredLoss m, measuredCN0_dB m with
     | Some _, None => 1
     | _, _ => 0
     end).

(** A measurement point that carries no measured quantity. *)
Definition blankPoint (m : Measurement) : Prop :=
  measuredCN0_dB m = None /\ measuredRSSI_dBm m = None
  /\ measuredXPD_dB m = None /\ measuredAttenuation_dB m = None
  /\ measuredLoss m = None.

(** A value that is at least [lo], or NaN. *)
Definition atLeastOrNaN (lo v : float) : bool := is_nan v || (lo <=? v).

(** A point of [fitModelToData] that the fit skips. *)
Definition unusablePoint (m : Measurement) : Prop :=
  m_rainRate m = None \/ measuredLoss m = None.

(** The panel's link parameters with fast fading disabled. *)
Definition panelParamsStatic : LinkParams := {|
  p_freq := Some 30.0; p_rainRate := Some 5.0; p_elevation := None;
  p_env := Some "suburban"%string;
  p_tec := Some 50; p_xpdAnt := None; p_correctionFactor := None;
  p_slantRange := None; p_hpbw := None; p_simTime := None;
  p_gasAttenOffset_dB := None; p_scatterPowerOffset_dB := None;
  p_isPhasedArray := false; p_disableFastFading := true;
  p_bandwidth := Some 400; p_eirp := Some 60; p_gRx := Some 42;
  p_tRx := Some 150
|}.

(** A measurement point with a geometry and no measured quantity. *)
Definition blankMeasurement : Measurement := {|
  m_elevation := Some 30; m_rainRate := Some 5; measuredCN0_dB := None;
  measuredRSSI_dBm := None; measuredXPD_dB := None;
  measuredAttenuation_dB := None; measuredLoss := None
|}.

(** ** Replay, fit and pass prediction *)



(** The factors the loop of [fitModelToData] visits from [factor], within
    [fuel] iterations. *)
Fixpoint factorsFrom (fuel : nat) (factor : float) : list float :=
  match fuel with
  | O => []
  | S fuel' =>
      if factor <=? 2.5 then factor :: factorsFrom fuel' (factor + 0.05)
      else []
  end.

(** The loop of [fitModelToData] started at [factor] ends within [fuel]
    iterations. *)
Fixpoint endsWithin (fuel : nat) (factor : float) : bool :=
  match fuel with
  | O => false
  | S fuel' =>
      if factor <=? 2.5 then endsWithin fuel' (factor + 0.05) else true
  end.

(** A factor of the search grid. *)
Definition inFitRange (r : float) : bool := (0.5 <=? r) && (r <=? 2.5).

(** A reported pass: high and long enough, with its three dates in
    order. *)
Definition passOK (p : Pass) : Prop :=
  (1.0 <=? maxElev p) = true
  /\ (30 <=? durationSec p) = true
  /\ exists c, tca p = Some c /\ (aos p <= c <= los p)%Z.

(** What the scan keeps true before the iteration for date [t]. *)
Definition scanInv (t : Z) (st : ScanState) : Prop :=
  Forall passOK (passes st)
  /\ (inPass st = true ->
      exists a c, aosTime st = Some a /\ tcaTime st = Some c
                  /\ (a <= c <= t - 60000)%Z)
  /\ (inPass st = false -> aosTime st = None).

(** A propagator that keeps the satellite at 30 degrees. *)
Definition stationaryPropagator : Propagator :=
  fun _ => Some {| la_elevation := 30; la_azimuth := 180; la_rangeSat := 35786 |}.

(** A sub-satellite point propagator for the examples. *)
Definition exampleGeoPropagator : GeoPropagator :=
  fun t =>
    if (t =? 60000)%Z then None
    else Some {| gd_latitude := 10; gd_longitude := 20; gd_height := 400 |}.

(** A data point of [fitModelToData]: a rain rate and a measured loss. *)
Definition lossPoint (rain loss : float) : Measurement := {|
  m_elevation := None; m_rainRate := Some rain; measuredCN0_dB := None;
  measuredRSSI_dBm := None; measuredXPD_dB := None;
  measuredAttenuation_dB := None; measuredLoss := Some loss
|}.

(** ** IEEE 754 facts *)

Module IEEE.

Lemma eq_of_Prim2SF (x y : float) : Prim2SF x = Prim2SF y -> x = y.
Proof.
  intro H. rewrite <- (SF2Prim_Prim2SF x), <- (SF2Prim_Prim2SF y).
  now rewrite H.
Qed.

Lemma SFcompare_refl (s : spec_float) :
  s <> S754_nan -> SFcompare s s = Some Eq.
Proof.
  destruct s as [b| b | |b m e]; intro H; try congruence; simpl.
  - reflexivity.
  - now destruct b.
  - destruct b; rewrite Z.compare_refl, Pos.compare_cont_refl; reflexivity.
Qed.

Lemma is_nan_spec (x : float) :
  is_nan x = match Prim2SF x with S754_nan => true | _ => false end.
Proof.
  unfold is_nan. rewrite FloatAxioms.eqb_spec. unfold SFeqb.
  destruct (Prim2SF x) eqn:E; try reflexivity;
    rewrite SFcompare_refl by discriminate; reflexivity.
Qed.

Lemma is_zero_spec (x : float) :
  is_zero x = match Prim2SF x with S754_zero _ => true | _ => false end.
Proof.
  unfold is_zero. rewrite FloatAxioms.eqb_spec. unfold SFeqb.
  change (Prim2SF zero) with (S754_zero false).
  destruct (Prim2SF x) as [b| b | |b m e]; try reflexivity; now destruct b.
Qed.

(** A comparison that holds has no NaN operand. *)
Lemma ltb_not_nan (x y : float) :
  (x <? y) = true -> is_nan x = false /\ is_nan y = false.
Proof.
  rewrite FloatAxioms.ltb_spec, !is_nan_spec. unfold SFltb.
  destruct (Prim2SF x), (Prim2SF y); simpl; intro H;
    try discriminate; split; reflexivity.
Qed.

Lemma leb_not_nan (x y : float) :
  (x <=? y) = true -> is_nan x = false /\ is_nan y = false.
Proof.
  rewrite FloatAxioms.leb_spec, !is_nan_spec. unfold SFleb.
  destruct (Prim2SF x), (Prim2SF y); simpl; intro H;
    try discriminate; split; reflexivity.
Qed.

Lemma ltb_leb (x y : float) : (x <? y) = true -> (x <=? y) = true.
Proof.
  rewrite FloatAxioms.ltb_spec, FloatAxioms.leb_spec. unfold SFltb, SFleb.
  destruct (SFcompare (Prim2SF x) (Prim2SF y)) as [[]|]; congruence.
Qed.

Lemma leb_refl (x : float) : is_nan x = false -> (x <=? x) = true.
Proof.
  rewrite is_nan_spec, FloatAxioms.leb_spec. unfold SFleb. intro H.
  rewrite SFcompare_refl; [reflexivity|].
  intro E. rewrite E in H. discriminate.
Qed.

(** Without NaN the order is total. *)
Lemma not_ltb_leb (x y : float) :
  is_nan x = false -> is_nan y = false -> (x <? y) = false ->
  (y <=? x) = true.
Proof.
  rewrite !is_nan_spec, FloatAxioms.ltb_spec, FloatAxioms.leb_spec. unfold SFltb, SFleb.
  destruct (Prim2SF x) as [b| b | |b m e], (Prim2SF y) as [b'|b'| |b' m' e'];
    simpl; try discriminate; try reflexivity;
    try (destruct b; try destruct b'; simpl; congruence);
    try (destruct b'; simpl; congruence).
  assert (Hm : Pos.compare_cont Eq m' m = CompOpp (Pos.compare_cont Eq m m'))
    by (rewrite Pos.compare_cont_antisym; reflexivity).
  destruct b, b'; simpl; try congruence; intros _ _;
    rewrite (Z.compare_antisym e e');
    destruct (e ?= e')%Z eqn:Ee; simpl; try congruence;
    rewrite Hm; destruct (Pos.compare_cont Eq m m'); simpl; congruence.
Qed.

(** A zero times anything is a zero or NaN. *)
Lemma mul_zero_l (z y : float) :
  is_zero z = true -> is_nan (z * y) || is_zero (z * y) = true.
Proof.
  rewrite !is_zero_spec, is_nan_spec, FloatAxioms.mul_spec. unfold SF64mul.
  destruct (Prim2SF z); try discriminate. intros _.
  destruct (Prim2SF y); reflexivity.
Qed.

(** A zero divided by anything is a zero or NaN. *)
Lemma div_zero_l (z y : float) :
  is_zero z = true -> is_nan (z / y) || is_zero (z / y) = true.
Proof.
  rewrite !is_zero_spec, is_nan_spec, FloatAxioms.div_spec. unfold SF64div.
  destruct (Prim2SF z); try discriminate. intros _.
  destruct (Prim2SF y); reflexivity.
Qed.

Lemma nan_or_zero (x : float) :
  is_nan x || is_zero x = true -> is_nan x = false -> (x =? 0) = true.
Proof. intros H Hn. rewrite Hn in H. exact H. Qed.

(** Anything times NaN, and NaN times anything, is NaN; so are sums. *)
Lemma is_nan_true (x : float) : is_nan x = true -> Prim2SF x = S754_nan.
Proof. rewrite is_nan_spec. destruct (Prim2SF x); congruence. Qed.

Lemma mul_nan_l x y : is_nan x = true -> is_nan (x * y) = true.
Proof.
  intro H. rewrite is_nan_spec, FloatAxioms.mul_spec, (is_nan_true x H). reflexivity.
Qed.

Lemma mul_nan_r x y : is_nan y = true -> is_nan (x * y) = true.
Proof.
  intro H. rewrite is_nan_spec, FloatAxioms.mul_spec, (is_nan_true y H).
  destruct (Prim2SF x); reflexivity.
Qed.

Lemma div_nan_r x y : is_nan y = true -> is_nan (x / y) = true.
Proof.
  intro H. rewrite is_nan_spec, FloatAxioms.div_spec, (is_nan_true y H).
  destruct (Prim2SF x); reflexivity.
Qed.

Lemma sub_nan_r x y : is_nan y = true -> is_nan (x - y) = true.
Proof.
  intro H. rewrite is_nan_spec, FloatAxioms.sub_spec, (is_nan_true y H).
  destruct (Prim2SF x); reflexivity.
Qed.

(** A positive finite number and its opposite. *)
Lemma pos_finite_shape (c : float) :
  (0 <? c) = true -> (c <? infinity) = true ->
  exists m e, Prim2SF c = S754_finite false m e.
Proof.
  rewrite !FloatAxioms.ltb_spec. unfold SFltb.
  change (Prim2SF 0) with (S754_zero false).
  change (Prim2SF infinity) with (S754_infinity false).
  destruct (Prim2SF c) as [b| b | |b m e]; simpl; try discriminate.
  - destruct b; discriminate.
  - destruct b; try discriminate. intros _ _. now exists m, e.
Qed.

Lemma opp_plus_self (c : float) :
  (0 <? c) = true -> (c <? infinity) = true -> - c + c = 0.
Proof.
  intros H0 Hi. destruct (pos_finite_shape c H0 Hi) as (m & e & Hc).
  apply eq_of_Prim2SF. rewrite FloatAxioms.add_spec, FloatAxioms.opp_spec, Hc.
  change (Prim2SF 0) with (S754_zero false).
  unfold SF64add, SFadd, SFopp. cbn [negb].
  rewrite Z.min_id. unfold shl_align. rewrite Z.sub_diag. cbn [fst cond_Zopp].
  rewrite Z.add_opp_diag_l. reflexivity.
Qed.

Lemma max_zero_opp (c : float) :
  (0 <? c) = true -> (c <? infinity) = true -> JS.max 0 (- c) = 0.
Proof.
  intros H0 Hi. destruct (pos_finite_shape c H0 Hi) as (m & e & Hc).
  unfold JS.max.
  assert (Hn : is_nan (- c) = false).
  { rewrite is_nan_spec, FloatAxioms.opp_spec, Hc. reflexivity. }
  rewrite Hn. cbn [orb].
  change (is_nan 0) with false. cbn [orb].
  assert (H1 : (0 <? - c) = false).
  { rewrite FloatAxioms.ltb_spec, FloatAxioms.opp_spec, Hc. reflexivity. }
  assert (H2 : (- c <? 0) = true).
  { rewrite FloatAxioms.ltb_spec, FloatAxioms.opp_spec, Hc. reflexivity. }
  now rewrite H1, H2.
Qed.

(** The hard clamp [Math.max(lo, Math.min(hi, x))]: inside [[lo, hi]],
    or NaN. *)
Lemma clamp_bounds (lo hi x : float) :
  (lo <=? hi) = true ->
  let v := JS.max lo (JS.min hi x) in
  is_nan v || ((lo <=? v) && (v <=? hi)) = true.
Proof.
  intros Hlh v. subst v.
  destruct (leb_not_nan _ _ Hlh) as [Hlo Hhi].
  unfold JS.max, JS.min. rewrite Hlo, Hhi. cbn [orb].
  destruct (is_nan x) eqn:Hx; cbn [orb].
  { change (is_nan nan) with true. reflexivity. }
  assert (Hmin : forall m, m = hi \/ (m = x /\ (x <=? hi) = true) ->
            is_nan (if is_nan m then nan
                    else if lo <? m then m
                    else if m <? lo then lo
                    else if get_sign lo then m else lo)
            || ((lo <=? (if is_nan m then nan
                    else if lo <? m then m
                    else if m <? lo then lo
                    else if get_sign lo then m else lo))
                && ((if is_nan m then nan
                    else if lo <? m then m
                    else if m <? lo then lo
                    else if get_sign lo then m else lo) <=? hi)) = true).
  { intros m Hm.
    assert (Hmn : is_nan m = false) by (destruct Hm as [->|[-> _]]; assumption).
    assert (Hmh : (m <=? hi) = true).
    { destruct Hm as [->|[-> H]]; [now apply leb_refl|exact H]. }
    rewrite Hmn.
    destruct (lo <? m) eqn:E1.
    - rewrite Hmn. cbn [orb]. now rewrite (ltb_leb _ _ E1), Hmh.
    - destruct (m <? lo) eqn:E2.
      + rewrite Hlo. cbn [orb]. now rewrite (leb_refl lo Hlo), Hlh.
      + destruct (get_sign lo).
        * rewrite Hmn. cbn [orb].
          now rewrite (not_ltb_leb m lo Hmn Hlo E2), Hmh.
        * rewrite Hlo. cbn [orb]. now rewrite (leb_refl lo Hlo), Hlh. }
  destruct (hi <? x) eqn:E1; [apply Hmin; now left|].
  destruct (x <? hi) eqn:E2.
  { apply Hmin. right. split; [reflexivity|now apply ltb_leb]. }
  destruct (get_sign hi); [apply Hmin; now left|].
  apply Hmin. right. split; [reflexivity|].
  now apply not_ltb_leb.
Qed.

Lemma ltb_not_zero (y : float) : (0 <? y) = true -> is_zero y = false.
Proof.
  rewrite FloatAxioms.ltb_spec, is_zero_spec. unfold SFltb.
  change (Prim2SF 0) with (S754_zero false).
  destruct (Prim2SF y); simpl; congruence.
Qed.

Lemma is_zero_cases (x : float) : is_zero x = true -> x = 0 \/ x = -0.
Proof.
  rewrite is_zero_spec.
  destruct (Prim2SF x) as [b| | |] eqn:E; try discriminate.
  intros _. rewrite <- (SF2Prim_Prim2SF x), E.
  destruct b; [right|left]; reflexivity.
Qed.

Lemma is_nan_not_finite (x : float) :
  is_nan x = true -> JS.isFinite x = false.
Proof. unfold JS.isFinite, is_finite. now intros ->. Qed.

(** What [Math.max(lo, x)] returns is at least [lo], or NaN. *)
Lemma max_lower_bound (lo x : float) :
  is_nan lo = false ->
  is_nan (JS.max lo x) || (lo <=? JS.max lo x) = true.
Proof.
  intro Hlo. unfold JS.max. rewrite Hlo. cbn [orb].
  destruct (is_nan x) eqn:Hx; [reflexivity|].
  destruct (lo <? x) eqn:E1.
  - rewrite Hx. cbn [orb]. now apply ltb_leb.
  - destruct (x <? lo) eqn:E2.
    + rewrite Hlo. cbn [orb]. now apply leb_refl.
    + destruct (get_sign lo).
      * rewrite Hx. cbn [orb]. now apply not_ltb_leb.
      * rewrite Hlo. cbn [orb]. now apply leb_refl.
Qed.

Lemma ltb_asym (x y : float) : (x <? y) = true -> (y <? x) = false.
Proof.
  rewrite !FloatAxioms.ltb_spec. unfold SFltb.
  destruct (Prim2SF x) as [b| b | |b m e], (Prim2SF y) as [b'|b'| |b' m' e'];
    simpl; try discriminate; try reflexivity;
    try (destruct b; try destruct b'; simpl; congruence);
    try (destruct b'; simpl; congruence).
  assert (Hm : Pos.compare_cont Eq m' m = CompOpp (Pos.compare_cont Eq m m'))
    by (rewrite Pos.compare_cont_antisym; reflexivity).
  destruct b, b'; simpl; try congruence;
    rewrite (Z.compare_antisym e e');
    destruct (e ?= e')%Z eqn:Ee; simpl; try congruence;
    rewrite Hm; destruct (Pos.compare_cont Eq m m'); simpl; congruence.
Qed.

(** Below the floor, [Math.max(lo, x)] is the floor. *)
Lemma max_floor (lo x : float) : (x <? lo) = true -> JS.max lo x = lo.
Proof.
  intro H. destruct (ltb_not_nan _ _ H) as [Hx Hlo].
  unfold JS.max. now rewrite Hx, Hlo, (ltb_asym _ _ H), H.
Qed.

Lemma ltb_not_leb (x y : float) : (x <? y) = true -> (y <=? x) = false.
Proof.
  rewrite FloatAxioms.ltb_spec, FloatAxioms.leb_spec. unfold SFltb, SFleb.
  destruct (Prim2SF x) as [b| b | |b m e], (Prim2SF y) as [b'|b'| |b' m' e'];
    simpl; try discriminate; try reflexivity;
    try (destruct b; try destruct b'; simpl; congruence);
    try (destruct b'; simpl; congruence).
  assert (Hm : Pos.compare_cont Eq m' m = CompOpp (Pos.compare_cont Eq m m'))
    by (rewrite Pos.compare_cont_antisym; reflexivity).
  destruct b, b'; simpl; try congruence;
    rewrite (Z.compare_antisym e e');
    destruct (e ?= e')%Z eqn:Ee; simpl; try congruence;
    rewrite Hm; destruct (Pos.compare_cont Eq m m'); simpl; congruence.
Qed.

Lemma binary_round_aux_sign (mx ex : Z) (lx : location) :
  match binary_round_aux prec emax false mx ex lx with
  | S754_zero s | S754_infinity s | S754_finite s _ _ => s = false
  | S754_nan => True
  end.
Proof.
  unfold binary_round_aux.
  destruct (shr_fexp prec emax mx ex lx) as [mrs' e'].
  destruct (shr_fexp prec emax _ e' loc_Exact) as [mrs'' e''].
  destruct (shr_m mrs''); [reflexivity| |exact I].
  destruct (Z.leb e'' (emax - prec)); reflexivity.
Qed.

(** A square root is at least 0, or NaN. *)
Lemma sqrt_nonneg (x : float) : is_nan (sqrt x) || (0 <=? sqrt x) = true.
Proof.
  rewrite is_nan_spec, FloatAxioms.leb_spec, FloatAxioms.sqrt_spec.
  change (Prim2SF 0) with (S754_zero false).
  unfold SF64sqrt, SFsqrt, SFleb.
  destruct (Prim2SF x) as [b|b| |b m e]; try (destruct b); try reflexivity.
  destruct (SFsqrt_core_binary prec emax (Z.pos m) e) as [[mz ez] lz].
  pose proof (binary_round_aux_sign mz ez lz) as Hs.
  destruct (binary_round_aux prec emax false mz ez lz) as [s|s| |s m' e'];
    try reflexivity; subst s; reflexivity.
Qed.

End IEEE.

(** ** The reference [Math] obeys the prescribed values *)

Lemma RefMath_laws : MathLaws RefMath.lib.
Proof.
  constructor; try reflexivity.
  intros y Hy. cbn [m_pow RefMath.lib]. unfold RefMath.pow.
  destruct (IEEE.ltb_not_nan _ _ Hy) as [_ Hn].
  rewrite Hn, (IEEE.ltb_not_zero y Hy), Hy.
  reflexivity.
Qed.

(** ** CIR engine *)

Section CIRFacts.

Variable M : MathLib.

Lemma pushScatter_labels (sps : list ScatterParam) :
  forall (taps : list ChannelTap) (i : nat) (d a f t : float),
    map label (pushScatter M taps sps i d a f t)
    = map label taps ++ map sp_label sps.
Proof.
  induction sps as [|sp rest IH]; intros taps0 i d a f t; simpl.
  - now rewrite app_nil_r.
  - rewrite IH, map_app, <- app_assoc. reflexivity.
Qed.

Lemma pushScatter_index (sps : list ScatterParam) :
  forall (taps : list ChannelTap) (i : nat) (d a f t : float),
    map index taps = seq 0 (List.length taps) ->
    map index (pushScatter M taps sps i d a f t)
    = seq 0 (List.length (pushScatter M taps sps i d a f t)).
Proof.
  induction sps as [|sp rest IH]; intros taps0 i d a f t Hidx; simpl.
  - exact Hidx.
  - apply IH. rewrite map_app, length_app, seq_app, Hidx. reflexivity.
Qed.

Lemma pushScatter_head (sps : list ScatterParam) :
  forall (t0 : ChannelTap) (taps : list ChannelTap) (i : nat)
         (d a f t : float),
    exists rest, pushScatter M (t0 :: taps) sps i d a f t = t0 :: rest.
Proof.
  induction sps as [|sp rest IH]; intros t0 taps0 i d a f t; simpl.
  - now exists taps0.
  - apply IH.
Qed.

(** The shape of the tap list, for any scalars. *)
Lemma cirTaps_structure (env : option string)
    (elevation simTime freq losDelay_ns losAmplitude losAmplitude_dB sinElev
     dispersionNs : float) :
  let ts :=
    cirTaps M env elevation simTime freq losDelay_ns losAmplitude
      losAmplitude_dB sinElev dispersionNs in
  (exists t0 rest,
      ts = t0 :: rest /\ index t0 = 0%nat /\ label t0 = LOS
      /\ excessDelay_ns t0 = 0 /\ phase_rad t0 = 0)
  /\ map label ts = expectedLabels env (JS.gtb dispersionNs 0.01)
  /\ map index ts = seq 0 (List.length ts).
Proof.
  unfold cirTaps, expectedLabels, seaTaps. cbv zeta.
  destruct (env_is env "maritime") eqn:Hsea;
    destruct (env_is env "urban") eqn:Hurban;
    destruct (env_is env "suburban") eqn:Hsub;
    destruct (JS.gtb dispersionNs 0.01) eqn:Hiono;
    cbn [orb app];
    (split;
     [ match goal with
       | |- context [pushScatter M (?t0 :: ?ts) ?sps ?i ?d ?a ?f ?t] =>
           destruct (pushScatter_head sps t0 ts i d a f t) as [rest Hrest];
           rewrite Hrest; eexists; eexists; cbn [app]; repeat split; reflexivity
       | |- _ => eexists; eexists; cbn [app]; repeat split; reflexivity
       end
     | split;
       [ rewrite ?map_app, ?pushScatter_labels; reflexivity
       | rewrite ?map_app, ?length_app, ?seq_app;
         try (rewrite pushScatter_index by reflexivity);
         reflexivity ] ]).
Qed.

(** Above the threshold the last tap is the ionospheric one, delayed by
    the dispersion. *)
Lemma cirTaps_iono (env : option string)
    (elevation simTime freq losDelay_ns losAmplitude losAmplitude_dB sinElev
     dispersionNs : float) :
  JS.gtb dispersionNs 0.01 = true ->
  exists front tap,
    cirTaps M env elevation simTime freq losDelay_ns losAmplitude
      losAmplitude_dB sinElev dispersionNs = front ++ [tap]
    /\ label tap = IonoDispersion
    /\ excessDelay_ns tap = dispersionNs
    /\ delay_ns tap = losDelay_ns + dispersionNs.
Proof.
  intro Habove. unfold cirTaps. cbv zeta. rewrite Habove.
  eexists. eexists. split; [reflexivity|]. repeat split.
Qed.

Lemma taps_computeCIR (params : LinkParams) :
  exists losDelay_ns losAmplitude losAmplitude_dB,
    taps (computeCIR M params)
    = cirTaps M (p_env params) (JS.num (p_elevation params))
        (JS.default (p_simTime params) 0) (JS.num (p_freq params))
        losDelay_ns losAmplitude losAmplitude_dB
        (m_sin M (JS.max 0.1 (JS.num (p_elevation params)) * JS.PI / 180))
        (cirDispersionNs M (JS.default (p_tec params) 50)
           (JS.num (p_freq params))
           (m_sin M (JS.max 0.1 (JS.num (p_elevation params)) * JS.PI / 180))).
Proof.
  unfold computeCIR.
  destruct (rainCoeffs (JS.num (p_freq params))) as [k_coeff alpha_coeff].
  eexists. eexists. eexists. reflexivity.
Qed.

End CIRFacts.

(** ** Link budget engine *)

Section LinkBudgetFacts.

Variable M : MathLib.

Lemma apparentElevation_eq (params : LinkParams) :
  apparentElevation (calculateLinkBudget M params)
  = JS.num (p_elevation params) + refractionOf M (JS.num (p_elevation params)).
Proof.
  unfold calculateLinkBudget. destruct (rainCoeffs _). reflexivity.
Qed.

Lemma attRain_eq (params : LinkParams) :
  attRain (calculateLinkBudget M params)
  = fst (rainCoeffs (JS.num (p_freq params)))
    * m_pow M (JS.num (p_rainRate params))
        (snd (rainCoeffs (JS.num (p_freq params))))
    * JS.default (p_correctionFactor params) 1.0
    * lEffOf M params.
Proof.
  unfold calculateLinkBudget. destruct (rainCoeffs _). reflexivity.
Qed.

Lemma attGas_eq (params : LinkParams) :
  attGas (calculateLinkBudget M params)
  = zenithGas (JS.num (p_freq params)) / m_sin M (elevRadOf M params).
Proof.
  unfold calculateLinkBudget. destruct (rainCoeffs _). reflexivity.
Qed.

Lemma omegaDeg_eq (params : LinkParams) :
  omegaDeg (calculateLinkBudget M params)
  = (108 * JS.default (p_tec params) 50.0)
    / (m_pow M (JS.num (p_freq params)) 2 * m_sin M (elevRadOf M params)).
Proof.
  unfold calculateLinkBudget. destruct (rainCoeffs _). reflexivity.
Qed.

Lemma lossFaraday_eq (params : LinkParams) :
  lossFaraday (calculateLinkBudget M params)
  = let omegaRad := (omegaDeg (calculateLinkBudget M params) * JS.PI) / 180 in
    let cosOmega := abs (m_cos M omegaRad) in
    if JS.gtb cosOmega 0.001 then -20 * m_log10 M cosOmega else 60.0.
Proof.
  unfold calculateLinkBudget. destruct (rainCoeffs _). reflexivity.
Qed.

Lemma groupDelayNs_eq (params : LinkParams) :
  groupDelayNs (calculateLinkBudget M params)
  = (134.0 * JS.default (p_tec params) 50)
    / (JS.num (p_freq params) * JS.num (p_freq params) * sinElevOf M params).
Proof.
  unfold calculateLinkBudget. destruct (rainCoeffs _). reflexivity.
Qed.

Lemma rainCoeffs_table (freq : float) :
  In (rainCoeffs freq)
    [ (0.018, 1.15); (0.187, 1.021); (0.35, 0.93); (0.55, 0.88);
      (0.0002, 0.95) ].
Proof.
  unfold rainCoeffs, RAIN_COEFFS. cbn [fold_left fst snd].
  repeat match goal with
         | |- context [if ?c then _ else _] => destruct c
         end; cbn [In]; tauto.
Qed.

Lemma zenithGas_over_zero (freq : float) : zenithGas freq / 0 = infinity.
Proof.
  unfold zenithGas.
  repeat match goal with
         | |- context [if ?c then _ else _] => destruct c
         end; reflexivity.
Qed.

End LinkBudgetFacts.

(** C1 fails on the code: at the elevation that the refraction correction
    lifts exactly onto the horizon, the apparent elevation is 0, its sine is
    0, and the divisions by [Math.sin(elevRad)], which have no floor, give
    an infinite gas attenuation and a rain attenuation that is NaN, whatever
    the frequency, the rain rate and the slant range are. *)
Theorem calculateLinkBudget_not_finite (M : MathLib) (L : MathLaws M)
    (params : LinkParams)
    (Hpos : (0 <? horizonRefraction M) = true)
    (Hfin : (horizonRefraction M <? infinity) = true)
    (Helev : p_elevation params = Some (- horizonRefraction M)) :
  let r := calculateLinkBudget M params in
  apparentElevation r = 0
  /\ attGas r = infinity
  /\ is_nan (attRain r) = true
  /\ forallb JS.isFinite (lb_fields r) = false.
Proof.
  assert (Hrefr : refractionOf M (- horizonRefraction M) = horizonRefraction M).
  { unfold refractionOf. rewrite (IEEE.max_zero_opp _ Hpos Hfin). reflexivity. }
  assert (Hrad : elevRadOf M params = 0).
  { unfold elevRadOf. rewrite Helev. cbn [JS.num]. rewrite Hrefr.
    rewrite (IEEE.opp_plus_self _ Hpos Hfin). reflexivity. }
  assert (Hrain : is_nan (attRain (calculateLinkBudget M params)) = true).
  { rewrite attRain_eq. apply IEEE.mul_nan_r.
    unfold lEffOf. rewrite Hrad, (sin_pos_zero M L). reflexivity. }
  cbv zeta. split; [|split; [|split]].
  - rewrite apparentElevation_eq, Helev. cbn [JS.num]. rewrite Hrefr.
    apply (IEEE.opp_plus_self _ Hpos Hfin).
  - rewrite attGas_eq, Hrad, (sin_pos_zero M L). apply zenithGas_over_zero.
  - exact Hrain.
  - unfold lb_fields. cbn [forallb].
    rewrite (IEEE.is_nan_not_finite _ Hrain). reflexivity.
Qed.

Lemma calculateLinkBudget_not_finite_witness :
  let r :=
    calculateLinkBudget RefMath.lib
      (with_elevation testDefaults (Some (- horizonRefraction RefMath.lib))) in
  apparentElevation r = 0
  /\ attGas r = infinity
  /\ is_nan (attRain r) = true
  /\ forallb JS.isFinite (lb_fields r) = false.
Proof.
  exact (calculateLinkBudget_not_finite RefMath.lib RefMath_laws
           (with_elevation testDefaults (Some (- horizonRefraction RefMath.lib)))
           eq_refl eq_refl eq_refl).
Defined.

(** C4, as the code has it: with no rain and no electron content, the rain
    attenuation, the Faraday loss and the group delay are exactly 0 as soon
    as the rain attenuation, the Faraday rotation angle and the group delay
    are numbers; on degenerate inputs (a frequency whose square underflows,
    a correction factor that is not finite) they are NaN instead. *)
Theorem vacuum_baseline (M : MathLib) (L : MathLaws M) (params : LinkParams)
    (Hrain : p_rainRate params = Some 0) (Htec : p_tec params = Some 0) :
  let r := calculateLinkBudget M params in
  (is_nan (attRain r) = false -> (attRain r =? 0) = true)
  /\ (is_nan (omegaDeg r) = false -> (lossFaraday r =? 0) = true)
  /\ (is_nan (groupDelayNs r) = false -> (groupDelayNs r =? 0) = true).
Proof.
  cbv zeta. split; [|split].
  - rewrite attRain_eq, Hrain. cbn [JS.num]. intro Hn.
    apply IEEE.nan_or_zero; [|exact Hn].
    match goal with
    | |- context [?g * lEffOf M params] =>
        assert (Hg : is_nan g || is_zero g = true)
    end.
    { apply IEEE.mul_zero_l.
      pose proof (rainCoeffs_table (JS.num (p_freq params))) as Hin.
      destruct (rainCoeffs (JS.num (p_freq params))) as [k alpha].
      cbn [fst snd]. cbn [In] in Hin.
      destruct Hin as [E|[E|[E|[E|[E|[]]]]]]; inversion E; subst k alpha;
        rewrite (pow_zero_pos M L) by reflexivity; reflexivity. }
    apply orb_true_iff in Hg. destruct Hg as [Hg|Hg].
    + rewrite (IEEE.mul_nan_l _ _ Hg) in Hn. discriminate.
    + now apply IEEE.mul_zero_l.
  - rewrite lossFaraday_eq. rewrite omegaDeg_eq, Htec. cbn [JS.default].
    intro Hn. cbv zeta.
    match type of Hn with
    | is_nan ?w = false =>
        assert (Hw : is_zero w = true)
          by (apply (IEEE.nan_or_zero w);
              [apply IEEE.div_zero_l; reflexivity|exact Hn]);
        destruct (IEEE.is_zero_cases w Hw) as [E|E]; rewrite E
    end.
    + replace (0 * JS.PI / 180) with 0 by reflexivity.
      rewrite (cos_pos_zero M L).
      replace (JS.gtb (abs 1) 0.001) with true by reflexivity.
      replace (abs 1) with 1 by reflexivity.
      rewrite (log10_one M L). reflexivity.
    + replace (-0 * JS.PI / 180) with (-0) by reflexivity.
      rewrite (cos_neg_zero M L).
      replace (JS.gtb (abs 1) 0.001) with true by reflexivity.
      replace (abs 1) with 1 by reflexivity.
      rewrite (log10_one M L). reflexivity.
  - rewrite groupDelayNs_eq, Htec. cbn [JS.default]. intro Hn.
    apply IEEE.nan_or_zero; [|exact Hn].
    apply IEEE.div_zero_l. reflexivity.
Qed.

Lemma vacuum_baseline_witness :
  let r := calculateLinkBudget RefMath.lib (with_tec testDefaults (Some 0)) in
  (attRain r =? 0) = true /\ (lossFaraday r =? 0) = true
  /\ (groupDelayNs r =? 0) = true.
Proof.
  destruct (vacuum_baseline RefMath.lib RefMath_laws
              (with_tec testDefaults (Some 0)) eq_refl eq_refl)
    as (Ha & Hf & Hg).
  cbv zeta. split; [apply Ha|split; [apply Hf|apply Hg]]; vm_compute; reflexivity.
Defined.

(** C4 as stated fails: at 1e-200 GHz, a frequency above zero, without rain
    and electron content, the group delay is 0/0, not 0. *)
Lemma vacuum_baseline_counterexample :
  (0 <? tinyFrequency) = true
  /\ (groupDelayNs
        (calculateLinkBudget RefMath.lib
           (with_freq (with_tec testDefaults (Some 0)) (Some tinyFrequency)))
      =? 0) = false.
Proof. vm_compute. split; reflexivity. Qed.

(** ** CIR engine *)

(** C2: [computeCIR] always returns at least one tap; tap 0 is the line of
    sight tap, with index 0, excess delay exactly 0 and phase exactly 0; the
    taps follow in insertion order (sea reflection, then scatter, then
    ionospheric), numbered by position; and which taps are present is a
    function of the environment and of the dispersion threshold test alone. *)
Theorem computeCIR_tap_structure (M : MathLib) (params : LinkParams) :
  let cir := computeCIR M params in
  (exists t0 rest,
      taps cir = t0 :: rest /\ index t0 = 0%nat /\ label t0 = LOS
      /\ excessDelay_ns t0 = 0 /\ phase_rad t0 = 0)
  /\ map label (taps cir)
     = expectedLabels (p_env params) (ionoAboveThreshold M params)
  /\ map index (taps cir) = seq 0 (List.length (taps cir)).
Proof.
  cbv zeta.
  destruct (taps_computeCIR M params) as (d & a & adb & ->).
  apply cirTaps_structure.
Qed.

(** ** MIMO capacity calculator *)

(** C8: the capacities [calculateMIMOCapacity] returns are the ones the
    specification writes: rank 1 is [log2(1 + 10^(snrDb/10))], rank 2 is
    [2 log2(1 + SINR)] with the cross-talk limited SINR. *)
Theorem calculateMIMOCapacity_formulas (M : MathLib) (snrDb xpdDb : float) :
  capRank1 (calculateMIMOCapacity M snrDb xpdDb)
  = fst (capacitySpec M snrDb xpdDb)
  /\ capRank2 (calculateMIMOCapacity M snrDb xpdDb)
     = snd (capacitySpec M snrDb xpdDb).
Proof.
  unfold calculateMIMOCapacity, capacitySpec; cbn [capRank1 capRank2 fst snd].
  split; reflexivity.
Qed.

(** ** The falsy default of the total electron content *)

Lemma cirDispersionNs_tec_zero (M : MathLib) (freq sinElev : float) :
  cirDispersionNs M 0 freq sinElev = cirDispersionNs M 50 freq sinElev.
Proof. reflexivity. Qed.

Lemma existsb_label (l0 : TapLabel) (ts : list ChannelTap) :
  existsb (fun t => TapLabel_eqb (label t) l0) ts
  = existsb (fun l => TapLabel_eqb l l0) (map label ts).
Proof.
  induction ts as [|t ts IH]; simpl; [reflexivity|]. now rewrite IH.
Qed.

(** C9: with [tec = 0], [computeCIR] computes its ionospheric dispersion
    with 50 TECU (the falsy default [tec || 50]): its result is the one for
    [tec = 50], the ionospheric tap is there exactly when
    [2 * 134 * 50 * 0.4 / (freq^3 sinElev)] exceeds 0.01 ns, and then it is
    the last tap, delayed by that dispersion; so [tec = 0] does not suppress
    the tap. The scintillation sigma of [calculateLinkBudget] at [tec = 0]
    is the one of 50 TECU as well, its ionospheric part being
    [(50 / 100) (2 / freq^1.5) / sinElev^1.2]. *)
Theorem tec_zero_reads_as_fifty (M : MathLib) (params : LinkParams) :
  let cir0 := computeCIR M (with_tec params (Some 0)) in
  let lb0 := calculateLinkBudget M (with_tec params (Some 0)) in
  cir0 = computeCIR M (with_tec params (Some 50))
  /\ hasIonoTap cir0 = ionoAboveThreshold M (with_tec params (Some 50))
  /\ hasIonoTap cir0 = JS.gtb (dispersionAtFifty M params) 0.01
  /\ (JS.gtb (dispersionAtFifty M params) 0.01 = true ->
      exists front tap,
        taps cir0 = front ++ [tap]
        /\ label tap = IonoDispersion
        /\ excessDelay_ns tap = dispersionAtFifty M params)
  /\ scintillationSigma lb0
     = scintillationSigma (calculateLinkBudget M (with_tec params (Some 50)))
  /\ scintillationSigma lb0
     = sigmaAtFifty M (JS.num (p_freq params)) (apparentElevation lb0).
Proof.
  cbv zeta.
  assert (Hcir : computeCIR M (with_tec params (Some 0))
                 = computeCIR M (with_tec params (Some 50))).
  { unfold computeCIR.
    cbn [with_tec p_freq p_rainRate p_elevation p_env p_tec p_correctionFactor
         p_slantRange p_simTime JS.default].
    rewrite cirDispersionNs_tec_zero. reflexivity. }
  assert (Hlabels :
            hasIonoTap (computeCIR M (with_tec params (Some 0)))
            = JS.gtb (dispersionAtFifty M params) 0.01).
  { unfold hasIonoTap.
    destruct (taps_computeCIR M (with_tec params (Some 0)))
      as (d & a & adb & ->).
    match goal with
    | |- context [cirTaps M ?env ?e ?s ?f d a adb ?se ?disp] =>
        destruct (cirTaps_structure M env e s f d a adb se disp)
          as (_ & Hlab & _)
    end.
    rewrite existsb_label, Hlab. unfold expectedLabels.
    cbn [with_tec p_freq p_elevation p_env p_tec p_simTime JS.default].
    change (cirDispersionNs M 0 (JS.num (p_freq params))
              (m_sin M (JS.max 0.1 (JS.num (p_elevation params)) * JS.PI / 180)))
      with (dispersionAtFifty M params).
    generalize (p_env params); intro env.
    destruct (env_is env "maritime"), (env_is env "urban"),
      (env_is env "suburban"),
      (JS.gtb (dispersionAtFifty M params) 0.01); reflexivity. }
  split; [exact Hcir|]. split; [|split; [exact Hlabels|split; [|split]]].
  - rewrite Hlabels. reflexivity.
  - intro Habove.
    destruct (taps_computeCIR M (with_tec params (Some 0)))
      as (d & a & adb & ->).
    cbn [with_tec p_freq p_elevation p_env p_tec p_simTime JS.default].
    change (cirDispersionNs M 0 (JS.num (p_freq params))
              (m_sin M (JS.max 0.1 (JS.num (p_elevation params)) * JS.PI / 180)))
      with (dispersionAtFifty M params).
    match goal with
    | |- context [cirTaps M ?env ?e ?s ?f d a adb ?se ?disp] =>
        destruct (cirTaps_iono M env e s f d a adb se disp Habove)
          as (front & tap & -> & Hl & He & _)
    end.
    exists front, tap. split; [reflexivity|]. split; assumption.
  - unfold calculateLinkBudget.
    cbn [with_tec p_freq p_rainRate p_elevation p_env p_tec p_correctionFactor
         p_slantRange p_simTime p_xpdAnt p_hpbw JS.default].
    destruct (rainCoeffs (JS.num (p_freq params))) as [k alpha].
    reflexivity.
  - unfold calculateLinkBudget.
    cbn [with_tec p_freq p_rainRate p_elevation p_env p_tec p_correctionFactor
         p_slantRange p_simTime p_xpdAnt p_hpbw JS.default].
    destruct (rainCoeffs (JS.num (p_freq params))) as [k alpha].
    reflexivity.
Qed.

(** On a rural Ku-band link at 45 degrees, [tec = 0] gives the line of
    sight and the ionospheric tap. *)
Lemma tec_zero_reads_as_fifty_witness :
  hasIonoTap (computeCIR RefMath.lib (with_tec ruralKuParams (Some 0))) = true
  /\ map label
       (taps (computeCIR RefMath.lib (with_tec ruralKuParams (Some 0))))
     = [LOS; IonoDispersion].
Proof.
  pose proof (tec_zero_reads_as_fifty RefMath.lib ruralKuParams) as H.
  cbv zeta in H. destruct H as (_ & _ & Hthreshold & _).
  split.
  - rewrite Hthreshold. vm_compute. reflexivity.
  - vm_compute. reflexivity.
Defined.

(** ** Calibration profiles *)

(** C7: for an absent or empty measurement list [calibrateModel] returns the
    default profile: all five parameters at their identity defaults, not
    calibrated, no timestamp, no data points, zero residual. The function is
    total, so nothing is thrown. *)
Theorem calibrateModel_empty (M : MathLib) (amb : Ambient)
    (linkParams : LinkParams) (refSat : option RefSatellite) :
  calibrateModel M amb None linkParams refSat = createDefaultCalibration
  /\ calibrateModel M amb (Some []) linkParams refSat = createDefaultCalibration
  /\ createDefaultCalibration
     = {| calibrated := false; timestamp := None; dataPointCount := 0;
          residualRMS := 0; refSatellite := None;
          params :=
            {| c_correctionFactor := Some 1.0;
               c_gasAttenOffset_dB := Some 0.0;
               c_scatterPowerOffset_dB := Some 0.0;
               c_eirpOffset_dB := Some 0.0;
               c_systemNoiseOffset_K := Some 0.0 |} |}.
Proof. split; [reflexivity|split; reflexivity]. Qed.

(** C10: [applyCalibration] returns its first argument unchanged when the
    profile is absent or not calibrated; the default profile is such a
    profile. *)
Theorem applyCalibration_uncalibrated (rawParams : LinkParams)
    (prof : CalibrationProfile) (Huncal : calibrated prof = false) :
  applyCalibration rawParams None = rawParams
  /\ applyCalibration rawParams (Some prof) = rawParams
  /\ applyCalibration rawParams (Some createDefaultCalibration) = rawParams.
Proof.
  unfold applyCalibration. rewrite Huncal. split; [|split]; reflexivity.
Qed.

Lemma applyCalibration_uncalibrated_witness :
  applyCalibration testDefaults None = testDefaults
  /\ applyCalibration testDefaults (Some createDefaultCalibration) = testDefaults
  /\ applyCalibration testDefaults (Some createDefaultCalibration) = testDefaults.
Proof.
  exact (applyCalibration_uncalibrated testDefaults createDefaultCalibration
           eq_refl).
Defined.

(** ** The wall clock *)

(** [calibrateModel] stamps the profile of a non-empty measurement list with
    the wall clock of the call ([new Date().toISOString()]): the same
    measurements and link parameters give profiles with different
    timestamps at different times. *)
Lemma calibrateModel_reads_clock :
  match
    timestamp
      (calibrateModel RefMath.lib (ambientAt "2024-01-01T00:00:00.000Z")
         (Some [attenuationPoint 5 3]) panelParams None),
    timestamp
      (calibrateModel RefMath.lib (ambientAt "2024-01-01T00:00:01.000Z")
         (Some [attenuationPoint 5 3]) panelParams None)
  with
  | Some t1, Some t2 => String.eqb t1 t2
  | _, _ => true
  end = false.
Proof. vm_compute. reflexivity. Qed.

(** ** Calibration bounds *)

Section CalibrationFacts.

Variable M : MathLib.

(** Whatever the step is, the bounded update assigns every parameter a
    value within its bounds, or NaN. *)
Lemma updateParams_bounded (calibParams : CalibParams) (dp : list float) :
  boundedOrNaN (fst (updateParams calibParams dp)).
Proof.
  unfold updateParams, CALIB_PARAM_DEFS.
  cbn [List.length seq fold_left nth_error d_key d_min d_max cp_set cp_get
       c_correctionFactor c_gasAttenOffset_dB c_scatterPowerOffset_dB
       c_eirpOffset_dB c_systemNoiseOffset_K fst].
  intros def Hdef. cbn [In] in Hdef.
  destruct Hdef as [E|[E|[E|[E|[E|[]]]]]]; subst def;
    cbn [d_key cp_get c_correctionFactor c_gasAttenOffset_dB
         c_scatterPowerOffset_dB c_eirpOffset_dB c_systemNoiseOffset_K];
    eexists; (split; [reflexivity|]);
    unfold withinBounds; cbn [d_min d_max];
    apply IEEE.clamp_bounds; reflexivity.
Qed.

Lemma defaultCalibParams_bounded : boundedOrNaN defaultCalibParams.
Proof.
  intros def Hdef. unfold CALIB_PARAM_DEFS in Hdef. cbn [In] in Hdef.
  destruct Hdef as [E|[E|[E|[E|[E|[]]]]]]; subst def;
    eexists; (split; [reflexivity|]); reflexivity.
Qed.

Lemma iterate_bounded (remaining : nat) (measurements : list Measurement)
    (effectiveParams : LinkParams) :
  forall calibParams,
    boundedOrNaN calibParams ->
    boundedOrNaN (iterate M remaining measurements effectiveParams calibParams).
Proof.
  induction remaining as [|n IH]; intros calibParams Hb; [exact Hb|].
  cbn [iterate].
  pose proof (updateParams_bounded calibParams
                (gaussNewtonStep M measurements effectiveParams calibParams))
    as Hup.
  destruct (updateParams calibParams
              (gaussNewtonStep M measurements effectiveParams calibParams))
    as [c' maxStep].
  cbn [fst] in Hup.
  destruct (maxStep <? 1e-6); [exact Hup|]. now apply IH.
Qed.

(** The profile [calibrateModel] returns has every parameter within its
    declared bounds, or NaN: the hard clamp lets nothing else through. *)
Theorem calibrateModel_bounded_or_nan (amb : Ambient)
    (measurements : option (list Measurement)) (linkParams : LinkParams)
    (refSat : option RefSatellite) :
  boundedOrNaN (params (calibrateModel M amb measurements linkParams refSat)).
Proof.
  unfold calibrateModel.
  destruct measurements as [[|m ms]|];
    [apply defaultCalibParams_bounded| |apply defaultCalibParams_bounded].
  lazy beta iota zeta delta [params].
  apply iterate_bounded, defaultCalibParams_bounded.
Qed.

End CalibrationFacts.

(** C3 fails on the code: one measurement point with a rain rate of 1e200
    mm/h makes the Jacobian column of the rain correction factor so large
    that its square overflows; the elimination then computes 0 * Infinity,
    the step is NaN, the clamp [Math.max(min, Math.min(max, NaN))] is NaN,
    and the profile returned has NaN for all five parameters, none of them
    within its bounds. *)
Theorem calibrateModel_out_of_bounds (amb : Ambient) :
  let prof :=
    calibrateModel RefMath.lib amb (Some [attenuationPoint 1e200 10])
      panelParams None in
  map (fun def => is_nan (JS.num (cp_get (params prof) (d_key def))))
    CALIB_PARAM_DEFS
  = [true; true; true; true; true]
  /\ map (fun def => withinBounds def (JS.num (cp_get (params prof) (d_key def))))
       CALIB_PARAM_DEFS
     = [false; false; false; false; false].
Proof. vm_compute. split; reflexivity. Qed.

(** ** Time-series generator *)

Section TimeSeriesFacts.

Variable M : MathLib.
Variable amb : Ambient.
Variable look : Propagator.
Variables endTime stepSec : Z.
Variable linkParams : LinkParams.

Hypothesis stepSec_pos : (0 < stepSec)%Z.

Lemma gridSize_step (t : Z) :
  (t <= endTime)%Z ->
  gridSize t endTime (stepSec * 1000)
  = S (gridSize (t + stepSec * 1000) endTime (stepSec * 1000)).
Proof.
  intro Hle. unfold gridSize.
  destruct (Z.leb_spec t endTime) as [_|Hc]; [|lia].
  f_equal.
  destruct (Z.leb_spec (t + stepSec * 1000) endTime) as [Hn|Hn].
  - replace (endTime - t)%Z
      with ((endTime - (t + stepSec * 1000)) + 1 * (stepSec * 1000))%Z by lia.
    rewrite Z.div_add by lia.
    assert (Hq : (0 <= (endTime - (t + stepSec * 1000)) / (stepSec * 1000))%Z)
      by (apply Z.div_pos; lia).
    lia.
  - rewrite Z.div_small by lia. reflexivity.
Qed.

Lemma gridSize_past (t : Z) :
  (endTime < t)%Z -> gridSize t endTime (stepSec * 1000) = O.
Proof.
  intro H. unfold gridSize. destruct (Z.leb_spec t endTime); [lia|reflexivity].
Qed.

(** With enough fuel the loop ends, having pushed the frames of the dates
    of the grid that resolve. *)
Lemma timeLoop_run (n : nat) :
  forall (t : Z) (frameIndex : nat) (timeline : list TimelineFrame)
         (fuel : nat),
    n = gridSize t endTime (stepSec * 1000) ->
    (n < fuel)%nat ->
    timeLoop M amb look endTime stepSec linkParams fuel t frameIndex timeline
    = Some (timeline
            ++ framesOver M amb look stepSec linkParams frameIndex
                 (gridFrom n t (stepSec * 1000))).
Proof.
  induction n as [|n IH]; intros t frameIndex timeline fuel Hn Hfuel;
    (destruct fuel as [|fuel]; [lia|]); cbn [timeLoop].
  - destruct (Z.leb_spec t endTime) as [Hle|Hgt].
    + rewrite (gridSize_step t Hle) in Hn. discriminate.
    + cbn [gridFrom framesOver]. now rewrite app_nil_r.
  - destruct (Z.leb_spec t endTime) as [Hle|Hgt].
    + rewrite (gridSize_step t Hle) in Hn. injection Hn as Hn.
      cbn [gridFrom framesOver].
      destruct (look t) as [la|].
      * rewrite (IH _ _ _ fuel Hn) by lia.
        rewrite <- app_assoc. reflexivity.
      * apply IH; [exact Hn|lia].
    + rewrite (gridSize_past t Hgt) in Hn. discriminate.
Qed.

Lemma framesOver_times (ts : list Z) :
  forall frameIndex,
    map fr_time (framesOver M amb look stepSec linkParams frameIndex ts)
    = filter (resolved look) ts.
Proof.
  induction ts as [|t ts IH]; intro frameIndex; cbn [framesOver filter];
    [reflexivity|].
  unfold resolved at 1. destruct (look t) as [la|].
  - cbn [map]. now rewrite IH.
  - apply IH.
Qed.

Lemma framesOver_indices (ts : list Z) :
  forall frameIndex,
    map fr_frameIndex (framesOver M amb look stepSec linkParams frameIndex ts)
    = seq frameIndex
        (List.length (framesOver M amb look stepSec linkParams frameIndex ts)).
Proof.
  induction ts as [|t ts IH]; intro frameIndex; cbn [framesOver];
    [reflexivity|].
  destruct (look t) as [la|].
  - cbn [map List.length seq]. now rewrite IH.
  - apply IH.
Qed.

Lemma frameAt_fromGeometry (frameIndex : nat) (t : Z) (la : LookAngles) :
  look t = Some la ->
  frameFromGeometry M look stepSec linkParams
    (frameAt M amb stepSec linkParams frameIndex t la).
Proof.
  intro Hlook. exists la.
  split; [exact Hlook|]. split; [reflexivity|]. split; [reflexivity|].
  split; [reflexivity|]. cbv zeta.
  split; [intro Hlow; apply (IEEE.max_floor _ _ Hlow)|].
  split; [reflexivity|].
  split; [|reflexivity].
  unfold frameSignalFrom. cbv zeta.
  split; [reflexivity|]. split; [reflexivity|]. split; [reflexivity|].
  split; [reflexivity|]. split; reflexivity.
Qed.

Lemma framesOver_fromGeometry (ts : list Z) :
  forall frameIndex,
    Forall (frameFromGeometry M look stepSec linkParams)
      (framesOver M amb look stepSec linkParams frameIndex ts).
Proof.
  induction ts as [|t ts IH]; intro frameIndex; cbn [framesOver];
    [constructor|].
  destruct (look t) as [la|] eqn:Hlook; [|apply IH].
  constructor; [now apply frameAt_fromGeometry|apply IH].
Qed.

End TimeSeriesFacts.

(** C6: the generator emits one frame for every date of the grid at which
    the propagator resolves a position, and for those dates only, whatever
    the sign of the elevation; a frame keeps the elevation of the propagator
    unchanged, while every figure of its link budget, its signal levels, its
    capacities and its CIR are those of the engines run at the elevation
    [Math.max(0.1, elevation)], that is 0.1 for every elevation below 0.1
    degrees. *)
Theorem generateChannelTimeSeries_frames (M : MathLib) (amb : Ambient)
    (look : Propagator) (startTime endTime stepSec : Z)
    (linkParams : LinkParams) (fuel : nat)
    (Hstep : (0 < stepSec)%Z)
    (Hfuel : (gridSize startTime endTime (stepSec * 1000) < fuel)%nat) :
  exists frames,
    generateChannelTimeSeries M fuel amb (Some look) startTime endTime stepSec
      linkParams = Some frames
    /\ map fr_time frames
       = filter (resolved look) (timeGrid startTime endTime (stepSec * 1000))
    /\ Forall (frameFromGeometry M look stepSec linkParams) frames.
Proof.
  eexists. split; [|split].
  - unfold generateChannelTimeSeries.
    rewrite (timeLoop_run M amb look endTime stepSec linkParams Hstep _
               startTime 0 [] fuel eq_refl Hfuel).
    reflexivity.
  - cbn [app]. apply framesOver_times.
  - cbn [app]. apply framesOver_fromGeometry.
Qed.

Lemma generateChannelTimeSeries_frames_witness :
  exists frames,
    generateChannelTimeSeries RefMath.lib 10 exampleAmbient
      (Some examplePropagator) 0 20000 10 testDefaults = Some frames
    /\ map fr_time frames
       = filter (resolved examplePropagator) (timeGrid 0 20000 (10 * 1000))
    /\ Forall (frameFromGeometry RefMath.lib examplePropagator 10 testDefaults)
         frames.
Proof.
  apply (generateChannelTimeSeries_frames RefMath.lib exampleAmbient
           examplePropagator 0 20000 10 testDefaults 10 eq_refl).
  vm_compute. repeat constructor.
Defined.

(** * Further properties of the model *)

(** ** Link budget *)

Lemma xpd_eq (M : MathLib) (params : LinkParams) :
  exists raw, xpd (calculateLinkBudget M params) = JS.max 0 (JS.min 40 raw).
Proof.
  unfold calculateLinkBudget. destruct (rainCoeffs _).
  eexists. reflexivity.
Qed.

(** The cross-polarization discrimination of a link budget is within
    [[0, 40]] dB, or NaN, for every input. *)
Theorem xpd_clamped (M : MathLib) (params : LinkParams) :
  let x := xpd (calculateLinkBudget M params) in
  is_nan x || ((0 <=? x) && (x <=? 40)) = true.
Proof.
  cbv zeta. destruct (xpd_eq M params) as [raw ->].
  apply IEEE.clamp_bounds. reflexivity.
Qed.

(** With fast fading disabled the link budget does not depend on the
    simulation time, and its scintillation loss is 0. *)
Theorem fast_fading_disabled (M : MathLib) (params : LinkParams)
    (t : JS.opt) (Hdis : p_disableFastFading params = true) :
  calculateLinkBudget M (with_simTime params t)
  = calculateLinkBudget M (with_simTime params None)
  /\ scintLoss (calculateLinkBudget M (with_simTime params t)) = 0.
Proof.
  unfold calculateLinkBudget.
  cbn [with_simTime p_freq p_rainRate p_elevation p_env p_tec p_xpdAnt
       p_correctionFactor p_slantRange p_hpbw p_simTime p_gasAttenOffset_dB
       p_isPhasedArray p_disableFastFading p_bandwidth].
  rewrite Hdis. cbn [negb]. rewrite !andb_false_r.
  destruct (rainCoeffs (JS.num (p_freq params))) as [k alpha].
  split; reflexivity.
Qed.

Lemma fast_fading_disabled_witness :
  calculateLinkBudget RefMath.lib
    (with_simTime (lbParamsAt 10 panelParamsStatic 3
                     {| la_elevation := 20; la_azimuth := 0;
                        la_rangeSat := 1300 |}) (Some 42))
  = calculateLinkBudget RefMath.lib
      (with_simTime (lbParamsAt 10 panelParamsStatic 3
                       {| la_elevation := 20; la_azimuth := 0;
                          la_rangeSat := 1300 |}) None)
  /\ scintLoss
       (calculateLinkBudget RefMath.lib
          (with_simTime (lbParamsAt 10 panelParamsStatic 3
                           {| la_elevation := 20; la_azimuth := 0;
                              la_rangeSat := 1300 |}) (Some 42))) = 0.
Proof.
  exact (fast_fading_disabled RefMath.lib
           (lbParamsAt 10 panelParamsStatic 3
              {| la_elevation := 20; la_azimuth := 0; la_rangeSat := 1300 |})
           (Some 42) eq_refl).
Defined.

(** Neither engine reads [scatterPowerOffset_dB], so the residuals of a
    calibration do not depend on the scatter power offset: that parameter
    cannot be fitted. *)
Theorem scatterPowerOffset_unused (M : MathLib) :
  (forall params v,
      calculateLinkBudget M (with_scatterPowerOffset_dB params v)
      = calculateLinkBudget M params)
  /\ (forall params v,
         computeCIR M (with_scatterPowerOffset_dB params v)
         = computeCIR M params)
  /\ (forall measurements linkParams calibParams v,
         computeResiduals M measurements linkParams
           (cp_set calibParams K_scatterPowerOffset_dB v)
         = computeResiduals M measurements linkParams calibParams).
Proof.
  split; [|split].
  - intros params v. reflexivity.
  - intros params v. reflexivity.
  - intros measurements linkParams calibParams v.
    unfold computeResiduals.
    cbn [applyCalibration calibrated negb params cp_set
         c_correctionFactor c_gasAttenOffset_dB c_scatterPowerOffset_dB
         c_eirpOffset_dB c_systemNoiseOffset_K].
    generalize (@nil float).
    induction measurements as [|m ms IH]; intro acc; cbn [fold_left];
      [reflexivity|].
    rewrite IH. f_equal.
Qed.

(** ** CIR *)

Lemma expectedLabels_length (env : option string) (above : bool) :
  (1 <= List.length (expectedLabels env above) <= 4)%nat.
Proof.
  unfold expectedLabels, env_is. destruct env as [e|].
  - destruct (String.eqb_spec e "maritime") as [->|_];
      [destruct above; cbn; lia|].
    destruct (String.eqb_spec e "urban") as [->|_];
      [destruct above; cbn; lia|].
    destruct (String.eqb e "suburban"); destruct above; cbn; lia.
  - destruct above; cbn; lia.
Qed.

(** A CIR has between one and four taps; outside the maritime, urban and
    suburban environments (rural, absent or any other name) it has the line
    of sight tap and at most the ionospheric tap, never a reflection or a
    scatter tap. *)
Theorem computeCIR_tap_count (M : MathLib) (params : LinkParams) :
  let ts := taps (computeCIR M params) in
  (1 <= List.length ts <= 4)%nat
  /\ (env_is (p_env params) "maritime" = false ->
      env_is (p_env params) "urban" = false ->
      env_is (p_env params) "suburban" = false ->
      map label ts = [LOS] \/ map label ts = [LOS; IonoDispersion]).
Proof.
  cbv zeta.
  destruct (taps_computeCIR M params) as (d & a & adb & ->).
  match goal with
  | |- context [cirTaps M ?env ?e ?s ?f d a adb ?se ?disp] =>
      destruct (cirTaps_structure M env e s f d a adb se disp)
        as (_ & Hlab & _);
      set (ts := cirTaps M env e s f d a adb se disp) in *
  end.
  rewrite <- (length_map label ts), Hlab.
  split; [apply expectedLabels_length|].
  unfold expectedLabels. intros -> -> ->.
  match goal with |- context [if ?b then [IonoDispersion] else _] =>
    destruct b end; [right|left]; reflexivity.
Qed.

Lemma rmsDelaySpread_eq (M : MathLib) (params : LinkParams) :
  exists x, rmsDelaySpread_ns (computeCIR M params) = sqrt x.
Proof.
  unfold computeCIR. destruct (rainCoeffs _). eexists. reflexivity.
Qed.

(** The RMS delay spread of a CIR is at least 0, or NaN (as when every tap
    amplitude underflows to 0), for every input. *)
Theorem rmsDelaySpread_nonneg (M : MathLib) (params : LinkParams) :
  atLeastOrNaN 0 (rmsDelaySpread_ns (computeCIR M params)) = true.
Proof.
  destruct (rmsDelaySpread_eq M params) as [x ->].
  apply IEEE.sqrt_nonneg.
Qed.

(** ** Signal-to-noise floors *)

Lemma fr_snrDb_eq (M : MathLib) (amb : Ambient) (stepSec : Z)
    (linkParams : LinkParams) (frameIndex : nat) (t : Z) (la : LookAngles) :
  exists x,
    fr_snrDb (frameAt M amb stepSec linkParams frameIndex t la)
    = JS.max (-30) x.
Proof. unfold frameAt. eexists. reflexivity. Qed.

(** The carrier-to-noise ratio predicted for a measurement, and the SNR of
    a frame of the time series, are at least -30 dB, or NaN. *)
Theorem snr_floor (M : MathLib) :
  (forall linkParams m,
      atLeastOrNaN (-30) (predictedCN0 (simulateForMeasurement M linkParams m))
      = true)
  /\ (forall amb stepSec linkParams frameIndex t la,
         atLeastOrNaN (-30)
           (fr_snrDb (frameAt M amb stepSec linkParams frameIndex t la))
         = true).
Proof.
  split.
  - intros linkParams m. unfold simulateForMeasurement.
    cbn [predictedCN0]. apply IEEE.max_lower_bound. reflexivity.
  - intros amb stepSec linkParams frameIndex t la.
    destruct (fr_snrDb_eq M amb stepSec linkParams frameIndex t la) as [x ->].
    apply IEEE.max_lower_bound. reflexivity.
Qed.

(** ** Calibration engine *)

Section ResidualFacts.

Variable M : MathLib.

Lemma residualsOf_length (sim : Prediction) (m : Measurement) :
  List.length (residualsOf sim m) = residualCount m.
Proof.
  unfold residualsOf, residualCount.
  destruct (measuredCN0_dB m), (measuredRSSI_dBm m), (measuredXPD_dB m),
    (measuredAttenuation_dB m), (measuredLoss m); reflexivity.
Qed.

Lemma fold_residuals_length (calibratedParams : LinkParams)
    (measurements : list Measurement) :
  forall acc,
    List.length
      (fold_left
         (fun residuals m =>
            residuals
            ++ residualsOf (simulateForMeasurement M calibratedParams m) m)
         measurements acc)
    = (List.length acc + list_sum (map residualCount measurements))%nat.
Proof.
  induction measurements as [|m ms IH]; intro acc;
    cbn [fold_left map list_sum fold_right].
  - lia.
  - rewrite IH, length_app, residualsOf_length. unfold list_sum. lia.
Qed.

Lemma residualCount_le (m : Measurement) : (residualCount m <= 4)%nat.
Proof.
  unfold residualCount.
  destruct (measuredCN0_dB m), (measuredRSSI_dBm m), (measuredXPD_dB m),
    (measuredAttenuation_dB m), (measuredLoss m); cbn; lia.
Qed.

(** The residual vector has, for every measurement point, one entry for
    each of [measuredCN0_dB], [measuredRSSI_dBm], [measuredXPD_dB] and
    [measuredAttenuation_dB] that is populated, and one more for the legacy
    [measuredLoss] only when it is populated and [measuredCN0_dB] is not,
    whatever the link and calibration parameters are. A point therefore
    contributes at most four residuals, also when all five metrics are
    populated, and the residuals of the perturbed parameters in the
    Jacobian have the length of the unperturbed ones. *)
Theorem computeResiduals_length (measurements : list Measurement)
    (linkParams : LinkParams) (calibParams : CalibParams) :
  List.length (computeResiduals M measurements linkParams calibParams)
  = list_sum (map residualCount measurements)
  /\ (List.length (computeResiduals M measurements linkParams calibParams)
      <= 4 * List.length measurements)%nat.
Proof.
  assert (Hlen : List.length
                   (computeResiduals M measurements linkParams calibParams)
                 = list_sum (map residualCount measurements)).
  { unfold computeResiduals. rewrite fold_residuals_length. reflexivity. }
  split; [exact Hlen|]. rewrite Hlen. clear Hlen.
  induction measurements as [|m ms IH]; cbn [map list_sum fold_right List.length];
    [lia|].
  pose proof (residualCount_le m). unfold list_sum in IH. lia.
Qed.

Lemma blank_residualCount (m : Measurement) :
  blankPoint m -> residualCount m = O.
Proof.
  intros (H1 & H2 & H3 & H4 & H5). unfold residualCount.
  now rewrite H1, H2, H3, H4, H5.
Qed.

Lemma computeResiduals_blank (measurements : list Measurement)
    (linkParams : LinkParams) (calibParams : CalibParams) :
  Forall blankPoint measurements ->
  computeResiduals M measurements linkParams calibParams = [].
Proof.
  intro Hb. apply length_zero_iff_nil.
  unfold computeResiduals. rewrite fold_residuals_length. cbn [List.length Nat.add].
  induction Hb as [|m ms Hm _ IH]; cbn [map list_sum fold_right];
    [reflexivity|].
  unfold list_sum in IH. now rewrite (blank_residualCount m Hm), IH.
Qed.

Lemma gaussNewtonStep_no_residuals (measurements : list Measurement)
    (effectiveParams : LinkParams) (calibParams : CalibParams) :
  computeResiduals M measurements effectiveParams calibParams = [] ->
  gaussNewtonStep M measurements effectiveParams calibParams
  = [0; 0; 0; 0; 0].
Proof.
  intro H. unfold gaussNewtonStep, jacobian. rewrite H.
  cbn [List.length seq map CALIB_PARAM_DEFS].
  reflexivity.
Qed.

(** Measurement points that carry no measured quantity calibrate nothing:
    the profile is flagged calibrated and counts the points, but its
    parameters are the defaults and its residual is 0. *)
Theorem calibrateModel_blank_points (amb : Ambient) (m : Measurement)
    (ms : list Measurement) (linkParams : LinkParams)
    (refSat : option RefSatellite)
    (Hblank : Forall blankPoint (m :: ms)) :
  calibrateModel M amb (Some (m :: ms)) linkParams refSat
  = {| calibrated := true;
       timestamp := Some (nowISO amb);
       dataPointCount := S (List.length ms);
       residualRMS := 0;
       refSatellite :=
         match refSat with Some rs => rs_satName rs | None => None end;
       params := defaultCalibParams |}.
Proof.
  unfold calibrateModel. cbv zeta.
  set (eff := match refSat with
              | Some rs => with_eirp (with_freq linkParams (rs_freq rs)) (rs_eirp rs)
              | None => linkParams
              end).
  assert (Hit : iterate M 30 (m :: ms) eff defaultCalibParams
                = defaultCalibParams).
  { cbn [iterate].
    rewrite (gaussNewtonStep_no_residuals (m :: ms) eff defaultCalibParams
               (computeResiduals_blank (m :: ms) eff defaultCalibParams Hblank)).
    reflexivity. }
  rewrite Hit.
  rewrite (computeResiduals_blank (m :: ms) eff defaultCalibParams Hblank).
  reflexivity.
Qed.

End ResidualFacts.

Lemma calibrateModel_blank_points_witness :
  calibrateModel RefMath.lib exampleAmbient (Some [blankMeasurement])
    panelParams None
  = {| calibrated := true;
       timestamp := Some (nowISO exampleAmbient);
       dataPointCount := 1;
       residualRMS := 0;
       refSatellite := None;
       params := defaultCalibParams |}.
Proof.
  apply (calibrateModel_blank_points RefMath.lib exampleAmbient
           blankMeasurement [] panelParams None).
  repeat constructor.
Defined.

(** A profile that holds the default parameters changes no link budget,
    even when it is flagged calibrated, as long as the raw parameters carry
    no rain correction and no gas offset of their own. *)
Theorem applyCalibration_default_parameters (M : MathLib)
    (rawParams : LinkParams) (prof : CalibrationProfile)
    (Hparams : params prof = defaultCalibParams)
    (Hcf : p_correctionFactor rawParams = None)
    (Hgas : p_gasAttenOffset_dB rawParams = None) :
  calculateLinkBudget M (applyCalibration rawParams (Some prof))
  = calculateLinkBudget M rawParams.
Proof.
  unfold applyCalibration. destruct (calibrated prof); [|reflexivity].
  cbn [negb]. rewrite Hparams.
  unfold calculateLinkBudget.
  cbn [p_freq p_rainRate p_elevation p_env p_tec p_xpdAnt p_correctionFactor
       p_slantRange p_hpbw p_simTime p_gasAttenOffset_dB p_isPhasedArray
       p_disableFastFading p_bandwidth].
  rewrite Hcf, Hgas.
  destruct (rainCoeffs (JS.num (p_freq rawParams))) as [k alpha].
  reflexivity.
Qed.

Lemma applyCalibration_default_parameters_witness :
  calculateLinkBudget RefMath.lib
    (applyCalibration panelParams
       (Some (calibrateModel RefMath.lib exampleAmbient
                (Some [blankMeasurement]) panelParams None)))
  = calculateLinkBudget RefMath.lib panelParams.
Proof.
  apply (applyCalibration_default_parameters RefMath.lib panelParams
           (calibrateModel RefMath.lib exampleAmbient
              (Some [blankMeasurement]) panelParams None));
    reflexivity.
Defined.

(** ** Time series and replay *)

(** The frames of a time series are numbered 0, 1, 2, ... in the order of
    their dates: the frame index counts the frames emitted, not the dates
    visited, and there are at most as many frames as dates on the grid. *)
Theorem generateChannelTimeSeries_indices (M : MathLib) (amb : Ambient)
    (look : Propagator) (startTime endTime stepSec : Z)
    (linkParams : LinkParams) (fuel : nat)
    (Hstep : (0 < stepSec)%Z)
    (Hfuel : (gridSize startTime endTime (stepSec * 1000) < fuel)%nat) :
  exists frames,
    generateChannelTimeSeries M fuel amb (Some look) startTime endTime stepSec
      linkParams = Some frames
    /\ map fr_frameIndex frames = seq 0 (List.length frames)
    /\ (List.length frames
        <= gridSize startTime endTime (stepSec * 1000))%nat.
Proof.
  eexists. split; [|split].
  - unfold generateChannelTimeSeries.
    rewrite (timeLoop_run M amb look endTime stepSec linkParams Hstep _
               startTime 0 [] fuel eq_refl Hfuel).
    reflexivity.
  - cbn [app]. apply framesOver_indices.
  - cbn [app].
    rewrite <- (length_map fr_time), framesOver_times.
    etransitivity; [apply filter_length_le|].
    clear. generalize startTime at 2.
    induction (gridSize startTime endTime (stepSec * 1000)) as [|n IH];
      intro t; cbn [gridFrom List.length]; [lia|].
    specialize (IH (t + stepSec * 1000)%Z). lia.
Qed.

Lemma generateChannelTimeSeries_indices_witness :
  exists frames,
    generateChannelTimeSeries RefMath.lib 10 exampleAmbient
      (Some examplePropagator) 0 20000 10 testDefaults = Some frames
    /\ map fr_frameIndex frames = seq 0 (List.length frames)
    /\ (List.length frames <= gridSize 0 20000 (10 * 1000))%nat.
Proof.
  apply (generateChannelTimeSeries_indices RefMath.lib exampleAmbient
           examplePropagator 0 20000 10 testDefaults 10 eq_refl).
  vm_compute. repeat constructor.
Defined.

Section ReplayFacts.

Variable M : MathLib.
Variable amb : Ambient.
Variable look : Propagator.
Variables endTime stepSec : Z.
Variable linkParams : LinkParams.

Hypothesis stepSec_pos : (0 < stepSec)%Z.




End ReplayFacts.



(** ** Least-squares fit of the rain correction factor *)

Section FitFacts.

Lemma gridSearch_defined (err : float -> float) (fuel : nat) :
  forall factor bestFactor minError,
    endsWithin fuel factor = true ->
    exists r, gridSearch err fuel factor bestFactor minError = Some r.
Proof.
  induction fuel as [|fuel IH]; intros factor b m Hend; [discriminate|].
  cbn [gridSearch endsWithin] in *.
  destruct (factor <=? 2.5); [|now exists b].
  destruct (err factor <? m); now apply IH.
Qed.

Lemma gridSearch_value (err : float -> float) (fuel : nat) :
  forall factor bestFactor minError r,
    gridSearch err fuel factor bestFactor minError = Some r ->
    r = bestFactor \/ In r (factorsFrom fuel factor).
Proof.
  induction fuel as [|fuel IH]; intros factor b m r H; [discriminate|].
  cbn [gridSearch factorsFrom] in *.
  destruct (factor <=? 2.5); [|injection H as <-; now left].
  destruct (err factor <? m); apply IH in H; cbn [In];
    destruct H as [->|H]; auto.
Qed.

Lemma gridSearch_more_fuel (err : float -> float) (fuel : nat) :
  forall k factor bestFactor minError r,
    gridSearch err fuel factor bestFactor minError = Some r ->
    gridSearch err (fuel + k) factor bestFactor minError = Some r.
Proof.
  induction fuel as [|fuel IH]; intros k factor b m r H; [discriminate|].
  cbn [gridSearch Nat.add] in *.
  destruct (factor <=? 2.5); [|exact H].
  destruct (err factor <? m); now apply IH.
Qed.

Lemma gridSearch_ext (err1 err2 : float -> float) (fuel : nat) :
  (forall factor, err1 factor = err2 factor) ->
  forall factor bestFactor minError,
    gridSearch err1 fuel factor bestFactor minError
    = gridSearch err2 fuel factor bestFactor minError.
Proof.
  intro Hext. induction fuel as [|fuel IH]; intros factor b m; [reflexivity|].
  cbn [gridSearch]. rewrite Hext.
  destruct (factor <=? 2.5); [|reflexivity].
  destruct (err2 factor <? m); apply IH.
Qed.

Lemma factors_in_range :
  forallb inFitRange (factorsFrom 42 0.5) = true.
Proof. vm_compute. reflexivity. Qed.

Variable M : MathLib.

Lemma fitErrorSum_unusable (realData : list Measurement)
    (currentParams : LinkParams) (factor : float) :
  Forall unusablePoint realData ->
  fitErrorSum M realData currentParams factor = 0.
Proof.
  unfold fitErrorSum. generalize 0.
  intros acc Hall. revert acc.
  induction Hall as [|m ms Hm _ IH]; intro acc; cbn [fold_left];
    [reflexivity|].
  destruct Hm as [Hm|Hm]; rewrite Hm; [|destruct (m_rainRate m)]; apply IH.
Qed.

End FitFacts.

(** [fitModelToData] ends after 41 factors and returns a correction factor
    within [[0.5, 2.5]], whatever the data and the parameters are: 1.0 for
    absent or empty data, else 1.0 or a factor of the search grid. *)
Theorem fitModelToData_range (M : MathLib) (fuel : nat)
    (realData : option (list Measurement)) (currentParams : LinkParams)
    (Hfuel : (42 <= fuel)%nat) :
  exists r,
    fitModelToData M fuel realData currentParams = Some r
    /\ inFitRange r = true.
Proof.
  unfold fitModelToData.
  destruct realData as [[|m ms]|]; try (exists 1.0; split; reflexivity).
  set (err := fitErrorSum M (m :: ms) currentParams).
  destruct (gridSearch_defined err 42 0.5 1.0 infinity eq_refl) as [r Hr].
  exists r. split.
  - replace fuel with (42 + (fuel - 42))%nat by lia.
    now apply gridSearch_more_fuel.
  - apply gridSearch_value in Hr. destruct Hr as [->|Hin]; [reflexivity|].
    pose proof factors_in_range as Hall.
    rewrite forallb_forall in Hall. now apply Hall.
Qed.

Lemma fitModelToData_range_witness :
  exists r,
    fitModelToData RefMath.lib 42 (Some [lossPoint 5 10.2; lossPoint 10 16.5])
      (with_elevation testDefaults (Some 40)) = Some r
    /\ inFitRange r = true.
Proof.
  apply (fitModelToData_range RefMath.lib 42
           (Some [lossPoint 5 10.2; lossPoint 10 16.5])
           (with_elevation testDefaults (Some 40))).
  repeat constructor.
Defined.

(** When no data point carries both a rain rate and a measured loss, every
    error sum is 0 and [fitModelToData] returns 0.5, the first factor of
    the grid, not the neutral factor 1.0. *)
Theorem fitModelToData_unusable (M : MathLib) (fuel : nat) (m : Measurement)
    (ms : list Measurement) (currentParams : LinkParams)
    (Hfuel : (42 <= fuel)%nat)
    (Hunusable : Forall unusablePoint (m :: ms)) :
  fitModelToData M fuel (Some (m :: ms)) currentParams = Some 0.5.
Proof.
  unfold fitModelToData.
  replace fuel with (42 + (fuel - 42))%nat by lia.
  apply gridSearch_more_fuel.
  rewrite (gridSearch_ext _ (fun _ => 0) 42
             (fun factor =>
                fitErrorSum_unusable M (m :: ms) currentParams factor
                  Hunusable)).
  vm_compute. reflexivity.
Qed.

Lemma fitModelToData_unusable_witness :
  fitModelToData RefMath.lib 42 (Some [attenuationPoint 5 3]) testDefaults
  = Some 0.5.
Proof.
  apply (fitModelToData_unusable RefMath.lib 42 (attenuationPoint 5 3) []
           testDefaults).
  - repeat constructor.
  - constructor; [right; reflexivity|constructor].
Defined.

(** ** Pass prediction *)

Lemma forRangeFrom_in (step : Z) (n : nat) :
  forall x y, In y (forRangeFrom n x step) ->
    exists k, (0 <= k < Z.of_nat n)%Z /\ y = (x + k * step)%Z.
Proof.
  induction n as [|n IH]; intros x y Hin; [destruct Hin|].
  cbn [forRangeFrom In] in Hin. destruct Hin as [<-|Hin].
  - exists 0%Z. split; lia.
  - destruct (IH _ _ Hin) as (k & Hk & ->). exists (k + 1)%Z. split; lia.
Qed.

Lemma forRange_bounds (from to step y : Z) :
  (0 < step)%Z -> In y (forRange from to step) -> (from <= y <= to)%Z.
Proof.
  intros Hstep Hin. unfold forRange in Hin.
  destruct (Z.leb_spec from to) as [Hle|Hgt]; [|destruct Hin].
  destruct (forRangeFrom_in step _ _ _ Hin) as (k & Hk & ->).
  assert (Hq : (0 <= (to - from) / step)%Z) by (apply Z.div_pos; lia).
  assert (Hm : (step * ((to - from) / step) <= to - from)%Z)
    by (apply Z.mul_div_le; lia).
  rewrite Nat2Z.inj_succ, Z2Nat.id in Hk by lia.
  nia.
Qed.

Section PassFacts.

Variable look : Propagator.
Variable minElev : float.

Lemma refine_bounds (test : float -> bool) (t rt : Z) :
  refine look test t = Some rt -> (t - 60000 <= rt <= t)%Z.
Proof.
  unfold refine. intro H. apply find_some in H. destruct H as [Hin _].
  apply (forRange_bounds _ _ 5000); [lia|exact Hin].
Qed.

(** An iteration of the scan never throws and keeps the invariant. *)
Lemma scanStep_inv (t : Z) (st : ScanState) :
  scanInv t st ->
  exists st', scanStep look minElev st t = Some st'
              /\ scanInv (t + 60000) st'.
Proof.
  intros (Hpasses & Hin & Hout). unfold scanStep. cbv zeta.
  destruct (getElev look t =? -999).
  { exists st. split; [reflexivity|]. split; [exact Hpasses|]. split.
    - intro Hp. destruct (Hin Hp) as (a & c & Ha & Hc & Hord).
      exists a, c. repeat split; try assumption; lia.
    - exact Hout. }
  destruct (inPass st) eqn:Hp.
  - (* in a pass *)
    destruct (Hin eq_refl) as (a & c & Ha & Hc & Hord).
    rewrite andb_false_r, !andb_true_r. cbn [negb].
    destruct (JS.gtb (getElev look t) (scanMaxElev st)).
    { eexists. split; [reflexivity|]. split; [exact Hpasses|]. split.
      - intros _. cbn [aosTime tcaTime]. exists a, t.
        repeat split; try assumption; lia.
      - cbn [inPass]. discriminate. }
    destruct (getElev look t <=? minElev).
    + rewrite Ha. eexists. split; [reflexivity|]. split; [|split].
      * cbn [passes].
        destruct ((1.0 <=? scanMaxElev st)
                  && (30 <=? of_Z (_ - a) / 1000)) eqn:Hguard;
          [|exact Hpasses].
        apply Forall_app. split; [exact Hpasses|].
        constructor; [|constructor].
        apply andb_true_iff in Hguard. destruct Hguard as [Hg1 Hg2].
        split; [exact Hg1|]. split; [exact Hg2|].
        cbn [tca aos los]. exists c. split; [exact Hc|].
        destruct (refine look (fun e => e <=? minElev) t) as [rt|] eqn:Hr.
        -- apply refine_bounds in Hr. lia.
        -- lia.
      * cbn [inPass]. discriminate.
      * reflexivity.
    + exists st. split; [reflexivity|]. split; [exact Hpasses|]. split.
      * intros _. exists a, c. repeat split; try assumption; lia.
      * rewrite Hp. discriminate.
  - (* not in a pass *)
    rewrite !andb_true_r, !andb_false_r. cbn [negb].
    destruct (JS.gtb (getElev look t) minElev).
    + eexists. split; [reflexivity|]. split; [exact Hpasses|]. split.
      * intros _. cbn [aosTime tcaTime]. rewrite (Hout eq_refl).
        destruct (refine look (fun e => JS.gtb e minElev) t) as [rt|] eqn:Hr.
        -- apply refine_bounds in Hr. exists rt, t. repeat split; lia.
        -- exists t, t. repeat split; lia.
      * cbn [inPass]. discriminate.
    + exists st. split; [reflexivity|]. split; [exact Hpasses|]. split.
      * rewrite Hp. discriminate.
      * intros _. apply Hout. reflexivity.
Qed.

Lemma scan_inv (n : nat) :
  forall (t : Z) (st : ScanState),
    scanInv t st ->
    exists st' t', scan look minElev (forRangeFrom n t 60000) st = Some st'
                   /\ scanInv t' st'.
Proof.
  induction n as [|n IH]; intros t st Hinv; cbn [forRangeFrom scan].
  - now exists st, t.
  - destruct (scanStep_inv t st Hinv) as (st1 & -> & Hinv1).
    apply (IH _ _ Hinv1).
Qed.

(** While no date of the scan has an elevation at or below the mask, the
    scan reports nothing. *)
Lemma scan_no_loss (ts : list Z) :
  forall st,
    passes st = [] ->
    (forall t, In t ts ->
       look t = None \/ JS.gtb (getElev look t) minElev = true) ->
    exists st', scan look minElev ts st = Some st' /\ passes st' = [].
Proof.
  induction ts as [|t ts IH]; intros st Hp Hup; cbn [scan].
  - now exists st.
  - assert (Hstep : exists st1, scanStep look minElev st t = Some st1
                                /\ passes st1 = []).
    { unfold scanStep. cbv zeta.
      destruct (Hup t (or_introl eq_refl)) as [Hnone|Hgt].
      - unfold getElev. rewrite Hnone.
        replace (-999 =? -999) with true by reflexivity.
        now exists st.
      - destruct (getElev look t =? -999); [now exists st|].
        rewrite Hgt. unfold JS.gtb in Hgt.
        rewrite (IEEE.ltb_not_leb _ _ Hgt). cbn [andb].
        destruct (negb (inPass st)); [eexists; split; [reflexivity|exact Hp]|].
        destruct (JS.gtb (getElev look t) (scanMaxElev st) && inPass st);
          [eexists; split; [reflexivity|exact Hp]|].
        now exists st. }
    destruct Hstep as (st1 & -> & Hp1).
    apply IH; [exact Hp1|]. intros t' Hin. apply Hup. now right.
Qed.

End PassFacts.

(** Every pass [predictPasses] reports reaches at least 1 degree, lasts at
    least 30 seconds, and has its acquisition, closest approach and loss of
    signal in this order; the closest approach is never [null], and the
    subtraction of the acquisition date never throws. *)
Theorem predictPasses_sound (now : Z) (satrec : option Propagator)
    (hoursAhead : Z) (minElev : float) :
  Forall passOK (predictPasses now satrec hoursAhead minElev)
  /\ (forall look, satrec = Some look ->
        exists st,
          scan look minElev
            (forRange now (now + hoursAhead * 3600000) 60000) scanStart
          = Some st
          /\ predictPasses now satrec hoursAhead minElev = passes st).
Proof.
  assert (Hstart : scanInv now scanStart).
  { split; [constructor|]. split; [discriminate|reflexivity]. }
  unfold predictPasses. destruct satrec as [look|].
  - unfold forRange. cbv zeta.
    destruct (scan_inv look minElev
                (if (now <=? now + hoursAhead * 3600000)%Z
                 then S (Z.to_nat ((now + hoursAhead * 3600000 - now) / 60000))
                 else O) now scanStart Hstart)
      as (st & t' & Hscan & Hinv).
    rewrite Hscan. split; [exact (proj1 Hinv)|].
    intros look' E. injection E as <-. now exists st.
  - split; [constructor|]. discriminate.
Qed.

(** A satellite that is above the elevation mask at every date of the scan
    with a position, such as a geostationary one, yields no pass: a pass
    that has not ended within the window is not reported. *)
Theorem predictPasses_always_up (now : Z) (look : Propagator)
    (hoursAhead : Z) (minElev : float)
    (Hup : forall t,
        In t (forRange now (now + hoursAhead * 3600000) 60000) ->
        look t = None \/ JS.gtb (getElev look t) minElev = true) :
  predictPasses now (Some look) hoursAhead minElev = [].
Proof.
  unfold predictPasses. cbv zeta.
  destruct (scan_no_loss look minElev _ scanStart eq_refl Hup)
    as (st & -> & Hp).
  exact Hp.
Qed.

Lemma predictPasses_always_up_witness :
  predictPasses 1700000000000 (Some stationaryPropagator) 24 0 = [].
Proof.
  apply (predictPasses_always_up 1700000000000 stationaryPropagator 24 0).
  intros t _. right. reflexivity.
Defined.

(** ** Ground track and sky track *)

Section TrackFacts.

Context {A B : Type}.
Variable source : Z -> option A.
Variable point : A -> Z -> B.
Variable current : B -> bool.
Hypothesis current_point : forall a m, current (point a m) = (m =? 0)%Z.
Variable now : Z.

(** The points pushed for the minutes [ms]. *)
Lemma track_fold (ms : list Z) :
  forall acc,
    fold_left
      (fun points m =>
         match source (now + m * 60000)%Z with
         | None => points
         | Some a => points ++ [point a m]
         end) ms acc
    = acc
      ++ flat_map
           (fun m =>
              match source (now + m * 60000)%Z with
              | None => []
              | Some a => [point a m]
              end) ms.
Proof.
  induction ms as [|m ms IH]; intro acc; cbn [fold_left flat_map].
  - now rewrite app_nil_r.
  - rewrite IH. destruct (source (now + m * 60000)%Z); cbn [app];
      [now rewrite <- app_assoc|reflexivity].
Qed.

Lemma track_length (n : nat) :
  forall x,
    (List.length
       (flat_map
          (fun m =>
             match source (now + m * 60000)%Z with
             | None => []
             | Some a => [point a m]
             end) (forRangeFrom n x 1)) <= n)%nat.
Proof.
  induction n as [|n IH]; intro x; cbn [forRangeFrom flat_map List.length];
    [lia|].
  rewrite length_app. specialize (IH (x + 1)%Z).
  destruct (source (now + x * 60000)%Z); cbn [List.length]; lia.
Qed.

Lemma track_current (n : nat) :
  forall x,
    List.length
      (filter current
         (flat_map
            (fun m =>
               match source (now + m * 60000)%Z with
               | None => []
               | Some a => [point a m]
               end) (forRangeFrom n x 1)))
    = if ((x <=? 0) && (0 <? x + Z.of_nat n))%Z
      then match source now with Some _ => 1%nat | None => O end
      else O.
Proof.
  induction n as [|n IH]; intro x; cbn [forRangeFrom flat_map].
  - destruct (Z.leb_spec x 0), (Z.ltb_spec 0 (x + Z.of_nat 0)); cbn; lia.
  - rewrite filter_app, length_app, IH.
    destruct (Z.eq_dec x 0) as [->|Hx].
    + replace (now + 0 * 60000)%Z with now by lia.
      replace ((0 + 1 <=? 0) && (0 <? 0 + 1 + Z.of_nat n))%Z with false
        by (symmetry; apply andb_false_iff; left; apply Z.leb_gt; lia).
      replace ((0 <=? 0) && (0 <? 0 + Z.of_nat (S n)))%Z with true
        by (symmetry; apply andb_true_iff; split;
            [apply Z.leb_le|apply Z.ltb_lt]; lia).
      destruct (source now) as [a|]; cbn [filter List.length];
        [rewrite current_point|]; reflexivity.
    + assert (Hhead : List.length
                (filter current
                   match source (now + x * 60000)%Z with
                   | Some a => [point a x]
                   | None => []
                   end) = O).
      { destruct (source (now + x * 60000)%Z) as [a|]; [|reflexivity].
        cbn [filter]. rewrite current_point.
        destruct (Z.eqb_spec x 0); [contradiction|reflexivity]. }
      rewrite Hhead. cbn [Nat.add].
      replace ((x + 1 <=? 0) && (0 <? x + 1 + Z.of_nat n))%Z
        with ((x <=? 0) && (0 <? x + Z.of_nat (S n)))%Z; [reflexivity|].
      rewrite Nat2Z.inj_succ.
      destruct (Z.leb_spec x 0), (Z.leb_spec (x + 1) 0),
        (Z.ltb_spec 0 (x + Z.succ (Z.of_nat n))),
        (Z.ltb_spec 0 (x + 1 + Z.of_nat n)); cbn [andb]; try reflexivity; lia.
Qed.

End TrackFacts.

(** A ground track and a sky track hold at most one point per minute from
    10 minutes before the call to [minutesAhead] minutes after it, and
    exactly one of their points is flagged as current when the track
    reaches the present and the propagator has a position at the date of
    the call; otherwise none is. *)
Theorem tracks_current_point (now : Z) (minutesAhead : Z) :
  (forall geo,
      let points := computeGroundTrack now (Some geo) minutesAhead in
      (List.length points <= Z.to_nat (minutesAhead + 11))%nat
      /\ List.length (filter gp_isCurrent points)
         = if (0 <=? minutesAhead)%Z
           then match geo now with Some _ => 1%nat | None => O end
           else O)
  /\ (forall look,
         let points := computeSkyTrack now (Some look) minutesAhead in
         (List.length points <= Z.to_nat (minutesAhead + 11))%nat
         /\ List.length (filter sk_isCurrent points)
            = if (0 <=? minutesAhead)%Z
              then match look now with Some _ => 1%nat | None => O end
              else O).
Proof.
  assert (Hn : (if (-10 <=? minutesAhead)%Z
                then S (Z.to_nat ((minutesAhead - -10) / 1))
                else O) = Z.to_nat (minutesAhead + 11)).
  { destruct (Z.leb_spec (-10) minutesAhead); [|lia].
    rewrite Z.div_1_r. lia. }
  assert (Hc : ((-10 <=? 0)
                && (0 <? -10 + Z.of_nat (Z.to_nat (minutesAhead + 11))))%Z
               = (0 <=? minutesAhead)%Z).
  { cbn [andb Z.leb Z.compare].
    destruct (Z.ltb_spec 0 (-10 + Z.of_nat (Z.to_nat (minutesAhead + 11)))),
      (Z.leb_spec 0 minutesAhead); try reflexivity; lia. }
  split; intros src; cbv zeta.
  - unfold computeGroundTrack, forRange. rewrite Hn.
    rewrite (track_fold src
               (fun g m =>
                  {| gp_lat := gd_latitude g; gp_lon := gd_longitude g;
                     gp_alt := gd_height g; gp_isCurrent := (m =? 0)%Z |})
               now _ []).
    cbn [app]. split; [apply track_length|].
    rewrite (track_current src
               (fun g m =>
                  {| gp_lat := gd_latitude g; gp_lon := gd_longitude g;
                     gp_alt := gd_height g; gp_isCurrent := (m =? 0)%Z |})
               gp_isCurrent (fun _ _ => eq_refl) now).
    rewrite Hc. reflexivity.
  - unfold computeSkyTrack, forRange. rewrite Hn.
    rewrite (track_fold src
               (fun la m =>
                  {| sk_az := la_azimuth la; sk_elev := la_elevation la;
                     sk_isCurrent := (m =? 0)%Z |})
               now _ []).
    cbn [app]. split; [apply track_length|].
    rewrite (track_current src
               (fun la m =>
                  {| sk_az := la_azimuth la; sk_elev := la_elevation la;
                     sk_isCurrent := (m =? 0)%Z |})
               sk_isCurrent (fun _ _ => eq_refl) now).
    rewrite Hc. reflexivity.
Qed.

